(** * UnicycleTrajectoryPlanner: a shallow embedding and its properties

    This development embeds [src/Planners/src/UnicycleTrajectoryPlanner.cpp]
    of the bipedal-locomotion-framework:

    - the private state bundle [Impl] with its finite-state machine;
    - [setRobotContactFrames], [initialize], [isOutputValid], [setInput],
      [advance], [generateFirstTrajectory] and [getContactPhaseList];
    - the LIPM centre-of-mass system and its fixed-step integrator.

    Conventions.

    - A C++ [double] is read as a real number ([R]); rounding is not
      modelled, and statements that the specification makes "within
      tolerance" are proved with an explicit tolerance.
    - [std::chrono::nanoseconds] is an integer count of nanoseconds ([Z]).
      The cast of a [double] to such a count is the one place where the
      binary64 rounding decides the result; it is a function that is taken
      as given ([DurationCast]), not computed from the real number.
    - The footstep/DCM generator (UnicycleGenerator and the objects it
      hands out) is an external collaborator: its state is an arbitrary
      type [G], every mutating call is an event [GenCall] answered by
      [gen_exec], and every accessor is a function of [G].  The planner
      additionally records the calls it makes, in order, in the ghost field
      [calls].
    - A member function that returns [bool] and mutates the planner is a
      function [Impl -> bool * Impl]; [advance], which can also throw, returns
      an [outcome].
    - A variable that is read before it is assigned (a local declared
      without an initialiser, a default-constructed Eigen vector) gets its
      content from an argument named [uninit] or [u]. *)

From Stdlib Require Import Reals Lra Lia ZArith List String Bool.
Import ListNotations.

Local Open Scope R_scope.

(** ** Fixed-size vectors and matrices (Eigen) *)

Definition Vector2d : Type := R * R.
Definition Vector3d : Type := R * R * R.

Record Vector4d : Type := V4 { c0 : R; c1 : R; c2 : R; c3 : R }.
Record Matrix2d : Type := M2 { m00 : R; m01 : R; m10 : R; m11 : R }.
Record Matrix4d : Type := M4 { r0 : Vector4d; r1 : Vector4d; r2 : Vector4d; r3 : Vector4d }.

Definition v2_add (a b : Vector2d) : Vector2d := (fst a + fst b, snd a + snd b).
Definition m2_mulv (m : Matrix2d) (v : Vector2d) : Vector2d :=
  (m00 m * fst v + m01 m * snd v, m10 m * fst v + m11 m * snd v).

Definition v4_zero : Vector4d := V4 0 0 0 0.
Definition v4_add (a b : Vector4d) : Vector4d :=
  V4 (c0 a + c0 b) (c1 a + c1 b) (c2 a + c2 b) (c3 a + c3 b).
Definition v4_scale (s : R) (a : Vector4d) : Vector4d :=
  V4 (s * c0 a) (s * c1 a) (s * c2 a) (s * c3 a).
Definition v4_dot (a b : Vector4d) : R :=
  c0 a * c0 b + c1 a * c1 b + c2 a * c2 b + c3 a * c3 b.
(** [v.head<2>()] and [v.tail<2>()]. *)
Definition v4_head2 (a : Vector4d) : Vector2d := (c0 a, c1 a).
Definition v4_tail2 (a : Vector4d) : Vector2d := (c2 a, c3 a).
(** [v << a, b] for two 2-vectors. *)
Definition v4_of_pair (a b : Vector2d) : Vector4d := V4 (fst a) (snd a) (fst b) (snd b).

Definition m4_identity : Matrix4d :=
  M4 (V4 1 0 0 0) (V4 0 1 0 0) (V4 0 0 1 0) (V4 0 0 0 1).
Definition m4_scale (s : R) (m : Matrix4d) : Matrix4d :=
  M4 (v4_scale s (r0 m)) (v4_scale s (r1 m)) (v4_scale s (r2 m)) (v4_scale s (r3 m)).
(** Unary minus, coefficient by coefficient. *)
Definition v4_opp (a : Vector4d) : Vector4d := V4 (- c0 a) (- c1 a) (- c2 a) (- c3 a).
Definition m4_opp (m : Matrix4d) : Matrix4d :=
  M4 (v4_opp (r0 m)) (v4_opp (r1 m)) (v4_opp (r2 m)) (v4_opp (r3 m)).
Definition m4_mulv (m : Matrix4d) (v : Vector4d) : Vector4d :=
  V4 (v4_dot (r0 m) v) (v4_dot (r1 m) v) (v4_dot (r2 m) v) (v4_dot (r3 m) v).

Definition v4_coeff (v : Vector4d) (j : nat) : R :=
  match j with O => c0 v | 1%nat => c1 v | 2%nat => c2 v | _ => c3 v end.
Definition m4_row (m : Matrix4d) (i : nat) : Vector4d :=
  match i with O => r0 m | 1%nat => r1 m | 2%nat => r2 m | _ => r3 m end.
(** [m(i, j)], for [i, j < 4]. *)
Definition m4_coeff (m : Matrix4d) (i j : nat) : R := v4_coeff (m4_row m i) j.

(** ** Time *)

(** [std::chrono::nanoseconds]: a signed count of nanoseconds. *)
Definition nanoseconds : Type := Z.
(** [t.count() * 1e-9]. *)
Definition to_seconds (t : nanoseconds) : R := IZR t * 1e-9.
(** [std::chrono::nanoseconds(static_cast<int64_t>(x * 1e9))] (lines 275-278).
    The code rounds the product to a binary64 number before it truncates it
    toward zero, and the cast has a value only within the range of
    [int64_t].  Neither can be read off the real number that stands for [x]
    (truncation does not commute with rounding), so the conversion is taken
    as given: [nanoseconds_of_seconds x] is the count that the platform's
    cast yields for the double [x].  Nothing is assumed about it. *)
Class DurationCast : Type :=
  { nanoseconds_of_seconds : R -> nanoseconds }.

(** ** Data model *)

(** [Impl::FSM]. *)
Inductive FSM : Type := NotInitialized | Initialized | Running.

Definition FSM_eqb (a b : FSM) : bool :=
  match a, b with
  | NotInitialized, NotInitialized | Initialized, Initialized | Running, Running => true
  | _, _ => false
  end.

Inductive UnicycleController : Type := PERSON_FOLLOWING | DIRECT.
Inductive FirstDCMTrajectoryMode : Type := FifthOrderPoly.
Inductive StepPhase : Type := Stance | Swing | SwitchIn | SwitchOut.

(** A footstep of the generator. *)
Module Step.
Record t : Type := mk { position : Vector2d; angle : R; impactTime : R }.
End Step.

(** [DCMInitialState]: what [setDCMInitialState] receives. *)
Record DCMInitialState : Type :=
  { initialPosition : Vector2d; initialVelocity : Vector2d }.

Record COMInitialState : Type :=
  { initialPlanarPosition : Vector2d; initialPlanarVelocity : Vector2d }.

(** [manif::SE3d], as far as the planner reads it: the translation and the
    roll-pitch-yaw angles that
    [Conversions::toiDynTreeRot(T.asSO3()).asRPY()] returns. *)
Module SE3d.
Record t : Type := mk { x : R; y : R; z : R; asRPY : R * R * R }.
End SE3d.

(** [UnicycleTrajectoryPlannerInput]. *)
Module Input.
Record t : Type := mk
    { plannerInput : R * R * R;
      dcmInitialState : DCMInitialState;
      comInitialState : COMInitialState;
      isLeftLastSwinging : bool;
      initTime : nanoseconds;
      measuredTransform : SE3d.t }.
End Input.

(** [v(0)], [v(1)], [v(2)] of the three-component command. *)
Definition coeff3 (v : R * R * R) (i : nat) : R :=
  match i with O => fst (fst v) | 1%nat => snd (fst v) | _ => snd v end.

(** [UnicycleTrajectoryPlannerOutput] and its parts. *)
Record ContactStatus : Type :=
  { leftFootInContact : list bool;
    rightFootInContact : list bool;
    UsedLeftAsFixed : list bool }.

Record Steps : Type := { leftSteps : list Step.t; rightSteps : list Step.t }.

Module DCMTrajectory.
Record t : Type := mk { position : list Vector2d; velocity : list Vector2d }.
End DCMTrajectory.

Module COMTrajectory.
Record t : Type := mk
    { position : list Vector3d; velocity : list Vector3d; acceleration : list Vector3d }.
End COMTrajectory.

Module Output.
Record t : Type := mk
    { contactStatus : ContactStatus;
      steps : Steps;
      dcmTrajectory : DCMTrajectory.t;
      comTrajectory : COMTrajectory.t;
      mergePoints : list nat }.
End Output.

(** [iDynTree::FRAME_INVALID_INDEX]. *)
Definition FRAME_INVALID_INDEX : Z := (-1)%Z.

(** [UnicycleTrajectoryPlannerParameters]. *)
Module Parameters.
Record t : Type := mk
    { dt : nanoseconds;
      plannerHorizon : nanoseconds;
      nominalWidth : R;
      referencePointDistance : Vector2d;
      leftYawDeltaInRad : R;
      rightYawDeltaInRad : R;
      leftContactFrameName : string;
      rightContactFrameName : string;
      leftContactFrameIndex : Z;
      rightContactFrameIndex : Z }.
End Parameters.

(** [Impl::COMHeightTrajectory]. *)
Module COMHeightTrajectory.
Record t : Type := mk
    { position : list R; velocity : list R; acceleration : list R }.
End COMHeightTrajectory.

(** ** The collaborators *)

(** *** The footstep/DCM generator

    One constructor per mutating member function that the planner calls on
    [UnicycleGenerator], on its [unicyclePlanner()], on its DCM and CoM-height
    trajectory generators and on its foot prints. *)
Inductive GenCall : Type :=
| SetDesiredPersonDistance (x y : R)
| SetPersonFollowingControllerGain (gain : R)
| SetSlowWhenTurnGain (gain : R)
| SetSlowWhenBackwardFactor (factor : R)
| SetSlowWhenSidewaysFactor (factor : R)
| SetMaxStepLength (maxLength backwardFactor : R)
| SetMaximumIntegratorStepSize (dT : R)
| SetWidthSetting (minWidth nominalWidth : R)
| SetMaxAngleVariation (a : R)
| SetMinimumAngleForNewSteps (a : R)
| SetCostWeights (positionWeight timeWeight : R)
| SetStepTimings (minTime maxTime nominalTime : R)
| SetPlannerPeriod (dT : R)
| SetMinimumStepLength (l : R)
| SetSaturationsConservativeFactors (a b : R)
| SetLeftFootYawOffsetInRadians (a : R)
| SetRightFootYawOffsetInRadians (a : R)
| AddTerminalStep (b : bool)
| StartWithLeft (b : bool)
| ResetStartingFootIfStill (b : bool)
| SetUnicycleController (c : UnicycleController)
| SetSwitchOverSwingRatio (r : R)
| SetTerminalHalfSwitchTime (t : R)
| SetPauseConditions (maxStepTime nominalStepTime : R)
| SetMergePointRatio (a b : R)
| SetPauseActive (b : bool)
| AddCoMHeightTrajectoryGenerator
| SetCoMHeightSettings (height delta : R)
| AddDCMTrajectoryGenerator
| SetFootOriginOffset (left right : Vector2d)
| SetOmega (omega : R)
| SetFirstDCMTrajectoryMode (m : FirstDCMTrajectoryMode)
| SetLastStepDCMOffsetPercentage (r : R)
| ClearPersonFollowingDesiredTrajectory
| SetDesiredDirectControl (a b c : R)
| ClearLeftSteps
| ClearRightSteps
| AddPersonFollowingDesiredTrajectoryPoint (t : R) (point : Vector2d)
| Generate (initTime dT endTime : R)
| SetDCMInitialState (s : DCMInitialState)
| ReGenerate (initTime dT endTime : R) (correctLeft : bool)
             (measuredPosition : Vector2d) (measuredAngle : R).

(** The generator as the planner sees it.  [gen_exec c g] is the effect of
    the call [c] in the state [g]: the value the call returns and the next
    state (for a call whose result the planner does not read, and for a
    [void] one, the boolean is ignored).  The remaining fields are the
    accessors the planner copies its output from. *)
Class UnicycleGenerator (G : Type) : Type :=
  { gen_exec : GenCall -> G -> bool * G;
    getLeftSteps : G -> list Step.t;
    getRightSteps : G -> list Step.t;
    getStepPhases : G -> list StepPhase * list StepPhase;
    getFeetStandingPeriods : G -> list bool * list bool;
    getWhenUseLeftAsFixed : G -> list bool;
    getDCMPosition : G -> list Vector2d;
    getDCMVelocity : G -> list Vector2d;
    getCoMHeightTrajectory : G -> list R;
    getCoMHeightVelocity : G -> list R;
    getCoMHeightAccelerationProfile : G -> list R;
    getMergePoints : G -> list nat }.

(** *** The parameters handler

    [IParametersHandler::getParameter(name, param)] for the four types of
    parameter that [initialize] reads; [None] when the call returns false
    (the parameter is absent or does not have the requested type). *)
Record IParametersHandler : Type :=
  { getDouble : string -> option R;
    getString : string -> option string;
    getBool : string -> option bool;
    getVector2d : string -> option Vector2d }.

(** *** The kinematic model

    [iDynTree::Model] through [KinDynComputations]: whether
    [loadRobotModel] accepts it, and its [getFrameIndex]. *)
Record Model : Type :=
  { loadRobotModel : bool;
    getFrameIndex : string -> Z }.

(** *** Contact lists *)

(** [UnicycleUtilities::getContactList] is not among the sources and is
    taken as given: from the initial time, the sample period, the contact
    timeline, the footsteps, the frame index and the contact name it builds a
    contact list, or fails ([None]). *)
Class ContactAssembler (ContactList : Type) : Type :=
  { getContactList :
      nanoseconds -> nanoseconds -> list bool -> list Step.t -> Z -> string ->
      option ContactList }.

Definition ContactListMap (ContactList : Type) : Type := list (string * ContactList).

(** Modelled from the spec: [Contacts::ContactPhaseList] is not among the
    sources.  A contact phase list is "built from" the per-foot contact
    lists: here it is the map given to [setLists], and the
    default-constructed one is empty. *)
Record ContactPhaseList (ContactList : Type) : Type :=
  { lists : ContactListMap ContactList }.
Arguments lists {ContactList} _.

Definition emptyContactPhaseList {ContactList : Type} : ContactPhaseList ContactList :=
  {| lists := [] |}.

(** [contactPhaseList.setLists(map)]. *)
Definition setLists {ContactList : Type} (m : ContactListMap ContactList)
  (l : ContactPhaseList ContactList) : ContactPhaseList ContactList :=
  {| lists := m |}.

(** [map[key] = value] on a [std::map]. *)
Fixpoint map_assign {V : Type} (key : string) (value : V) (m : list (string * V))
  : list (string * V) :=
  match m with
  | [] => [(key, value)]
  | (k, v) :: m' =>
      if String.eqb k key then (k, value) :: m' else (k, v) :: map_assign key value m'
  end.

(** ** The CoM model and its integrator *)

(** Modelled from the spec: [ContinuousDynamicalSystem::LinearTimeInvariantSystem]
    is not among the sources.  The spec describes it as "pure data +
    matrices, no behavior beyond matrix storage", with a 4-dimensional
    state, the control input a 4-vector, and the state derivative
    [xdot = A x + B u]. *)
Record LinearTimeInvariantSystem : Type :=
  { lti_A : Matrix4d;
    lti_B : Matrix4d;
    lti_state : Vector4d;
    lti_controlInput : Vector4d }.

Definition setSystemMatrices (A B : Matrix4d) (s : LinearTimeInvariantSystem)
  : bool * LinearTimeInvariantSystem :=
  (true, {| lti_A := A; lti_B := B;
            lti_state := lti_state s; lti_controlInput := lti_controlInput s |}).

Definition setState (x : Vector4d) (s : LinearTimeInvariantSystem)
  : bool * LinearTimeInvariantSystem :=
  (true, {| lti_A := lti_A s; lti_B := lti_B s;
            lti_state := x; lti_controlInput := lti_controlInput s |}).

Definition setControlInput (u : Vector4d) (s : LinearTimeInvariantSystem)
  : bool * LinearTimeInvariantSystem :=
  (true, {| lti_A := lti_A s; lti_B := lti_B s;
            lti_state := lti_state s; lti_controlInput := u |}).

(** [dynamics(time, dx)]: the derivative does not depend on the time. *)
Definition lti_dynamics (s : LinearTimeInvariantSystem) : Vector4d :=
  v4_add (m4_mulv (lti_A s) (lti_state s)) (m4_mulv (lti_B s) (lti_controlInput s)).

(** Modelled from the spec: [ContinuousDynamicalSystem::RK4] is not among
    the sources.  The spec describes "one fixed-step explicit 4-stage (RK4)
    update per call", the time being passed in; [getSolution] is the value
    computed here. *)
Definition oneStepIntegration (s : LinearTimeInvariantSystem) (dT : nanoseconds)
  : Vector4d :=
  let h := to_seconds dT in
  let f (x : Vector4d) := lti_dynamics (snd (setState x s)) in
  let x0 := lti_state s in
  let k1 := f x0 in
  let k2 := f (v4_add x0 (v4_scale (h / 2) k1)) in
  let k3 := f (v4_add x0 (v4_scale (h / 2) k2)) in
  let k4 := f (v4_add x0 (v4_scale h k3)) in
  v4_add x0
    (v4_scale (h / 6)
       (v4_add (v4_add k1 (v4_scale 2 k2)) (v4_add (v4_scale 2 k3) k4))).

(** [Impl::COMSystem].  [dynamics] is [None] while there is no system whose
    matrices have been set (the pointer is null, or the system has just been
    created); [integrator] holds the integration step once the integrator
    has been given the system and the step. *)
Record COMSystem : Type :=
  { dynamics : option LinearTimeInvariantSystem;
    integrator : option nanoseconds }.

(** ** Reading the parameters of initialize *)

(** The local variables of [initialize] that are read from the handler. *)
Module Locals.
Record t : Type := mk
  { unicycleControllerAsString : string;
    unicycleGain : R;
    slowWhenTurningGain : R;
    slowWhenBackwardFactor : R;
    slowWhenSidewaysFactor : R;
    positionWeight : R;
    timeWeight : R;
    maxStepLength : R;
    minStepLength : R;
    maxLengthBackwardFactor : R;
    minWidth : R;
    minStepDuration : R;
    maxStepDuration : R;
    nominalDuration : R;
    maxAngleVariation : R;
    minAngleVariation : R;
    saturationFactors : Vector2d;
    startWithLeft : bool;
    startWithSameFoot : bool;
    terminalStep : bool;
    mergePointRatios : Vector2d;
    switchOverSwingRatio : R;
    lastStepSwitchTime : R;
    isPauseActive : bool;
    comHeight : R;
    comHeightDelta : R;
    leftZMPDelta : Vector2d;
    rightZMPDelta : Vector2d;
    lastStepDCMOffset : R;
    dt : R;
    plannerHorizon : R }.
End Locals.

(** The lambda [loadParam] under [ok = ok && loadParam(name, param)]:
    [param] keeps its value when the parameter cannot be read, and the
    handler is not asked when [ok] is already false. *)
Definition loadParam {A : Type} (ok : bool) (get : option A) (param : A) : bool * A :=
  if ok
  then match get with Some v => (true, v) | None => (false, param) end
  else (false, param).

(** The value of a parameter read with a fallback. *)
Definition orDefault {A : Type} (get : option A) (fallback : A) : A :=
  match get with Some v => v | None => fallback end.

(** The lambda [loadParamWithFallback] under [ok = ok && ...]. *)
Definition loadParamWithFallback {A : Type} (ok : bool) (get : option A)
  (param fallback : A) : bool * A :=
  if ok then (true, orDefault get fallback) else (false, param).

(** [iDynTree::deg2rad]. *)
Definition deg2rad (valueInDeg : R) : R := valueInDeg * PI / 180.

Definition setUnicycleControllerFromString (unicycleControllerAsString : string)
  (unicycleController : UnicycleController) : bool * UnicycleController :=
  if String.eqb unicycleControllerAsString "personFollowing"
  then (true, PERSON_FOLLOWING)
  else if String.eqb unicycleControllerAsString "direct"
  then (true, DIRECT)
  else (false, unicycleController).

(** Lines 265-315.  [u] gives the values that the locals declared without an
    initialiser hold before they are assigned; [q] is [m_pImpl->parameters]. *)
Definition parseParameters {durationCast : DurationCast}
  (h : IParametersHandler) (u : Locals.t) (q : Parameters.t)
  : bool * Locals.t * Parameters.t :=
  let ok := true in
  let '(ok, referencePointDistance) :=
    loadParam ok (getVector2d h "referencePosition") (Parameters.referencePointDistance q) in
  let '(ok, unicycleControllerAsString) :=
    loadParamWithFallback ok (getString h "controlType") EmptyString "direct"%string in
  let '(ok, unicycleGain) :=
    loadParamWithFallback ok (getDouble h "unicycleGain") (Locals.unicycleGain u) 10.0 in
  let '(ok, slowWhenTurningGain) :=
    loadParamWithFallback ok (getDouble h "slowWhenTurningGain")
                          (Locals.slowWhenTurningGain u) 2.0 in
  let '(ok, slowWhenBackwardFactor) :=
    loadParamWithFallback ok (getDouble h "slowWhenBackwardFactor")
                          (Locals.slowWhenBackwardFactor u) 0.4 in
  let '(ok, slowWhenSidewaysFactor) :=
    loadParamWithFallback ok (getDouble h "slowWhenSidewaysFactor")
                          (Locals.slowWhenSidewaysFactor u) 0.2 in
  let '(ok, dt) := loadParamWithFallback ok (getDouble h "dt") (Locals.dt u) 0.002 in
  let parameters_dt := nanoseconds_of_seconds dt in
  let '(ok, plannerHorizon) :=
    loadParamWithFallback ok (getDouble h "plannerHorizon") (Locals.plannerHorizon u) 20.0 in
  let parameters_plannerHorizon := nanoseconds_of_seconds plannerHorizon in
  let '(ok, positionWeight) :=
    loadParamWithFallback ok (getDouble h "positionWeight") (Locals.positionWeight u) 1.0 in
  let '(ok, timeWeight) :=
    loadParamWithFallback ok (getDouble h "timeWeight") (Locals.timeWeight u) 2.5 in
  let '(ok, maxStepLength) :=
    loadParamWithFallback ok (getDouble h "maxStepLength") (Locals.maxStepLength u) 0.32 in
  let '(ok, minStepLength) :=
    loadParamWithFallback ok (getDouble h "minStepLength") (Locals.minStepLength u) 0.01 in
  let '(ok, maxLengthBackwardFactor) :=
    loadParamWithFallback ok (getDouble h "maxLengthBackwardFactor")
                          (Locals.maxLengthBackwardFactor u) 0.8 in
  let '(ok, nominalWidth) :=
    loadParamWithFallback ok (getDouble h "nominalWidth") (Parameters.nominalWidth q) 0.20 in
  let '(ok, minWidth) :=
    loadParamWithFallback ok (getDouble h "minWidth") (Locals.minWidth u) 0.14 in
  let '(ok, minStepDuration) :=
    loadParamWithFallback ok (getDouble h "minStepDuration") (Locals.minStepDuration u) 0.65 in
  let '(ok, maxStepDuration) :=
    loadParamWithFallback ok (getDouble h "maxStepDuration") (Locals.maxStepDuration u) 1.5 in
  let '(ok, nominalDuration) :=
    loadParamWithFallback ok (getDouble h "nominalDuration") (Locals.nominalDuration u) 0.8 in
  let '(ok, maxAngleVariation) :=
    loadParamWithFallback ok (getDouble h "maxAngleVariation")
                          (Locals.maxAngleVariation u) 18.0 in
  let '(ok, minAngleVariation) :=
    loadParamWithFallback ok (getDouble h "minAngleVariation")
                          (Locals.minAngleVariation u) 5.0 in
  let '(ok, saturationFactors) :=
    loadParam ok (getVector2d h "saturationFactors") (Locals.saturationFactors u) in
  let '(ok, leftYawDeltaInRad) :=
    loadParamWithFallback ok (getDouble h "leftYawDeltaInDeg")
                          (Parameters.leftYawDeltaInRad q) 0.0 in
  let '(ok, rightYawDeltaInRad) :=
    loadParamWithFallback ok (getDouble h "rightYawDeltaInDeg")
                          (Parameters.rightYawDeltaInRad q) 0.0 in
  let leftYawDeltaInRad := deg2rad leftYawDeltaInRad in
  let rightYawDeltaInRad := deg2rad rightYawDeltaInRad in
  let '(ok, startWithLeft) := loadParamWithFallback ok (getBool h "swingLeft") true false in
  let '(ok, startWithSameFoot) :=
    loadParamWithFallback ok (getBool h "startAlwaysSameFoot") true true in
  let '(ok, terminalStep) := loadParamWithFallback ok (getBool h "terminalStep") true true in
  let '(ok, mergePointRatios) :=
    loadParam ok (getVector2d h "mergePointRatios") (Locals.mergePointRatios u) in
  let '(ok, switchOverSwingRatio) :=
    loadParamWithFallback ok (getDouble h "switchOverSwingRatio")
                          (Locals.switchOverSwingRatio u) 0.2 in
  let '(ok, lastStepSwitchTime) :=
    loadParamWithFallback ok (getDouble h "lastStepSwitchTime")
                          (Locals.lastStepSwitchTime u) 0.3 in
  let '(ok, isPauseActive) := loadParamWithFallback ok (getBool h "isPauseActive") true true in
  let '(ok, comHeight) :=
    loadParamWithFallback ok (getDouble h "comHeight") (Locals.comHeight u) 0.70 in
  let '(ok, comHeightDelta) :=
    loadParamWithFallback ok (getDouble h "comHeightDelta") (Locals.comHeightDelta u) 0.01 in
  let '(ok, leftZMPDelta) :=
    loadParam ok (getVector2d h "leftZMPDelta") (Locals.leftZMPDelta u) in
  let '(ok, rightZMPDelta) :=
    loadParam ok (getVector2d h "rightZMPDelta") (Locals.rightZMPDelta u) in
  let '(ok, lastStepDCMOffset) :=
    loadParamWithFallback ok (getDouble h "lastStepDCMOffset")
                          (Locals.lastStepDCMOffset u) 0.5 in
  let '(ok, leftContactFrameName) :=
    loadParam ok (getString h "leftContactFrameName") (Parameters.leftContactFrameName q) in
  let '(ok, rightContactFrameName) :=
    loadParam ok (getString h "rightContactFrameName") (Parameters.rightContactFrameName q) in
  (ok,
   Locals.mk unicycleControllerAsString unicycleGain slowWhenTurningGain
     slowWhenBackwardFactor slowWhenSidewaysFactor positionWeight timeWeight
     maxStepLength minStepLength maxLengthBackwardFactor minWidth minStepDuration
     maxStepDuration nominalDuration maxAngleVariation minAngleVariation
     saturationFactors startWithLeft startWithSameFoot terminalStep mergePointRatios
     switchOverSwingRatio lastStepSwitchTime isPauseActive comHeight comHeightDelta
     leftZMPDelta rightZMPDelta lastStepDCMOffset dt plannerHorizon,
   Parameters.mk parameters_dt parameters_plannerHorizon nominalWidth
     referencePointDistance leftYawDeltaInRad rightYawDeltaInRad
     leftContactFrameName rightContactFrameName
     (Parameters.leftContactFrameIndex q) (Parameters.rightContactFrameIndex q)).

(** ** The dummy input *)

(** [generateDummyUnicycleTrajectoryPlannerInput].  The CoM initial state is
    not assigned: [uninit] is what the default-constructed input holds. *)
Definition generateDummyUnicycleTrajectoryPlannerInput (uninit : COMInitialState)
  : Input.t :=
  Input.mk (0, 0, 0)
           {| initialPosition := (0, 0); initialVelocity := (0, 0) |}
           uninit
           false
           0%Z
           (SE3d.mk 0.0 (-0.1) 0.0 (0, 0, 0)).

(** ** Results of calls *)

(** A call that may not return: [Faulted] stands for an exception
    ([std::out_of_range] from [at]) and for undefined behaviour (an index out
    of range, a system whose matrices were never set); the planner's state
    after a fault is not modelled. *)
Inductive outcome (A : Type) : Type :=
| Returned (a : A)
| Faulted.
Arguments Returned {A} a.
Arguments Faulted {A}.

(** What the logger receives at the error level. *)
Inductive LogEntry : Type := LogError (message : string).

(** ** The planner state *)

Section Planner.

Context {G : Type} {generatorOps : UnicycleGenerator G}.
Context {ContactList : Type} {assembler : ContactAssembler ContactList}.
Context {durationCast : DurationCast}.

(** [UnicycleTrajectoryPlanner::Impl].  [calls] is a ghost field: the calls
    made on the generator so far, oldest first.  The mutex is not modelled:
    the functions below are run one at a time. *)
Record Impl : Type := mkImpl
  { state : FSM;
    output : Output.t;
    input : Input.t;
    parameters : Parameters.t;
    generator : G;
    calls : list GenCall;
    comSystem : COMSystem;
    initTime : nanoseconds;
    comHeightTrajectory : COMHeightTrajectory.t }.

Definition set_state (s : FSM) (p : Impl) : Impl :=
  mkImpl s (output p) (input p) (parameters p) (generator p) (calls p)
         (comSystem p) (initTime p) (comHeightTrajectory p).
Definition set_output (o : Output.t) (p : Impl) : Impl :=
  mkImpl (state p) o (input p) (parameters p) (generator p) (calls p)
         (comSystem p) (initTime p) (comHeightTrajectory p).
Definition set_input (i : Input.t) (p : Impl) : Impl :=
  mkImpl (state p) (output p) i (parameters p) (generator p) (calls p)
         (comSystem p) (initTime p) (comHeightTrajectory p).
Definition set_parameters (q : Parameters.t) (p : Impl) : Impl :=
  mkImpl (state p) (output p) (input p) q (generator p) (calls p)
         (comSystem p) (initTime p) (comHeightTrajectory p).
Definition set_comSystem (c : COMSystem) (p : Impl) : Impl :=
  mkImpl (state p) (output p) (input p) (parameters p) (generator p) (calls p)
         c (initTime p) (comHeightTrajectory p).
Definition set_initTime (t : nanoseconds) (p : Impl) : Impl :=
  mkImpl (state p) (output p) (input p) (parameters p) (generator p) (calls p)
         (comSystem p) t (comHeightTrajectory p).
Definition set_comHeightTrajectory (h : COMHeightTrajectory.t) (p : Impl) : Impl :=
  mkImpl (state p) (output p) (input p) (parameters p) (generator p) (calls p)
         (comSystem p) (initTime p) h.

(** A call on the generator: its result, and the planner with the
    generator's next state and the call recorded. *)
Definition call (c : GenCall) (p : Impl) : bool * Impl :=
  (fst (gen_exec c (generator p)),
   mkImpl (state p) (output p) (input p) (parameters p)
          (snd (gen_exec c (generator p))) (calls p ++ [c])
          (comSystem p) (initTime p) (comHeightTrajectory p)).

(** A call whose result is not read. *)
Definition call_ (c : GenCall) (p : Impl) : Impl := snd (call c p).

(** ** setRobotContactFrames, isOutputValid, setInput *)

Definition set_leftContactFrameIndex (i : Z) (q : Parameters.t) : Parameters.t :=
  Parameters.mk (Parameters.dt q) (Parameters.plannerHorizon q) (Parameters.nominalWidth q)
    (Parameters.referencePointDistance q) (Parameters.leftYawDeltaInRad q)
    (Parameters.rightYawDeltaInRad q) (Parameters.leftContactFrameName q)
    (Parameters.rightContactFrameName q) i (Parameters.rightContactFrameIndex q).
Definition set_rightContactFrameIndex (i : Z) (q : Parameters.t) : Parameters.t :=
  Parameters.mk (Parameters.dt q) (Parameters.plannerHorizon q) (Parameters.nominalWidth q)
    (Parameters.referencePointDistance q) (Parameters.leftYawDeltaInRad q)
    (Parameters.rightYawDeltaInRad q) (Parameters.leftContactFrameName q)
    (Parameters.rightContactFrameName q) (Parameters.leftContactFrameIndex q) i.

Definition setRobotContactFrames (model : Model) (p : Impl) : bool * Impl :=
  if FSM_eqb (state p) NotInitialized then (false, p)
  else if negb (loadRobotModel model) then (false, set_state NotInitialized p)
  else
    let p := set_parameters
               (set_leftContactFrameIndex
                  (getFrameIndex model (Parameters.leftContactFrameName (parameters p)))
                  (parameters p)) p in
    if Z.eqb (Parameters.leftContactFrameIndex (parameters p)) FRAME_INVALID_INDEX
    then (false, set_state NotInitialized p)
    else
      let p := set_parameters
                 (set_rightContactFrameIndex
                    (getFrameIndex model (Parameters.rightContactFrameName (parameters p)))
                    (parameters p)) p in
      if Z.eqb (Parameters.rightContactFrameIndex (parameters p)) FRAME_INVALID_INDEX
      then (false, set_state NotInitialized p)
      else (true, p).

Definition isOutputValid (p : Impl) : bool := FSM_eqb (state p) Running.

Definition setInput (i : Input.t) (p : Impl) : bool * Impl :=
  if FSM_eqb (state p) NotInitialized then (false, p)
  else (true, set_input i p).

(** ** advance *)

(** Lines 490-492.  [uninit] is the content of the default-constructed
    [Eigen::Vector2d]; both assignments write index 0. *)
Definition desiredPointInRelativeFrame (uninit : Vector2d) (plannerInput : R * R * R)
  : Vector2d :=
  let v := uninit in
  let v := (coeff3 plannerInput 0, snd v) in
  let v := (coeff3 plannerInput 1, snd v) in
  v.

(** The unicycle pose of lines 494-545: its rotation and its position. *)
Definition unicyclePose (p : Impl) : Matrix2d * Vector2d :=
  let correctLeft := negb (Input.isLeftLastSwinging (input p)) in
  let T := Input.measuredTransform (input p) in
  let measuredPositionLeft : Vector2d := (SE3d.x T, SE3d.y T) in
  let measuredAngleLeft := coeff3 (SE3d.asRPY T) 2 in
  let leftYawDeltaInRad := Parameters.leftYawDeltaInRad (parameters p) in
  let measuredPositionRight : Vector2d := (SE3d.x T, SE3d.y T) in
  let measuredAngleRight := coeff3 (SE3d.asRPY T) 2 in
  let rightYawDeltaInRad := Parameters.rightYawDeltaInRad (parameters p) in
  let '(unicyclePositionFromStanceFoot, unicycleAngle, footPosition) :=
    if correctLeft
    then ((0, - Parameters.nominalWidth (parameters p) / 2),
          measuredAngleLeft - leftYawDeltaInRad, measuredPositionLeft)
    else ((0, Parameters.nominalWidth (parameters p) / 2),
          measuredAngleRight - rightYawDeltaInRad, measuredPositionRight) in
  let s_theta := sin unicycleAngle in
  let c_theta := cos unicycleAngle in
  let unicycleRotation := M2 c_theta (- s_theta) s_theta c_theta in
  (unicycleRotation,
   v2_add (m2_mulv unicycleRotation unicyclePositionFromStanceFoot) footPosition).

(** Lines 548-551. *)
Definition desiredPointInAbsoluteFrame (uninit : Vector2d) (p : Impl) : Vector2d :=
  let '(unicycleRotation, unicyclePosition) := unicyclePose p in
  v2_add
    (m2_mulv unicycleRotation
       (v2_add (Parameters.referencePointDistance (parameters p))
               (desiredPointInRelativeFrame uninit (Input.plannerInput (input p)))))
    unicyclePosition.

(** The branch of [advance] taken in the state [Running] (lines 483-590);
    [false] is one of its three [return false]. *)
Definition replan (uninit : Vector2d) (initTime dt : R) (p : Impl) : bool * Impl :=
  let correctLeft := negb (Input.isLeftLastSwinging (input p)) in
  let endTime := initTime + to_seconds (Parameters.plannerHorizon (parameters p)) in
  let T := Input.measuredTransform (input p) in
  let measuredAngle := coeff3 (SE3d.asRPY T) 2 in
  let measuredPosition : Vector2d := (SE3d.x T, SE3d.y T) in
  let point := desiredPointInAbsoluteFrame uninit p in
  let p := call_ ClearPersonFollowingDesiredTrajectory p in
  let '(ok, p) := call (AddPersonFollowingDesiredTrajectoryPoint endTime point) p in
  if negb ok then (false, p)
  else
    let p := call_ (SetDesiredDirectControl (coeff3 (Input.plannerInput (input p)) 0)
                                            (coeff3 (Input.plannerInput (input p)) 1)
                                            (coeff3 (Input.plannerInput (input p)) 2)) p in
    let '(ok, p) := call (SetDCMInitialState (Input.dcmInitialState (input p))) p in
    if negb ok then (false, p)
    else
      let '(ok, p) :=
        call (ReGenerate initTime dt endTime correctLeft measuredPosition measuredAngle) p in
      if negb ok then (false, p) else (true, p).

(** The loop of lines 638-664 from its [i]-th iteration on, [positions]
    being the DCM positions from index [i]: the planar CoM positions,
    velocities and accelerations of the samples [i, i+1, ...], and the system
    in its last state.  [None] when [velocity.at(i)] throws. *)
Fixpoint integrateCoM (dT : nanoseconds) (velocity : list Vector2d)
  (positions : list Vector2d) (i : nat) (time : nanoseconds)
  (sys : LinearTimeInvariantSystem)
  : option (list Vector2d * list Vector2d * list Vector2d * LinearTimeInvariantSystem) :=
  match positions with
  | [] => Some ([], [], [], sys)
  | position_i :: rest =>
      match nth_error velocity i with
      | None => None
      | Some velocity_i =>
          let comPosition := v4_head2 (lti_state sys) in
          let sys := snd (setControlInput (v4_of_pair position_i velocity_i) sys) in
          let dx := lti_dynamics sys in
          let solution := oneStepIntegration sys dT in
          let sys := snd (setState solution sys) in
          match integrateCoM dT velocity rest (S i) (time + dT)%Z sys with
          | None => None
          | Some (ps, vs, accs, sys') =>
              Some (comPosition :: ps, v4_head2 dx :: vs, v4_tail2 dx :: accs, sys')
          end
      end
  end.

(** The loop of lines 673-679 for one of the three sequences, from index [i]
    on: [planar[i].z() = height[i]].  [None] when [height] is too short. *)
Fixpoint stackHeight (height : list R) (planar : list Vector2d) (i : nat)
  : option (list Vector3d) :=
  match planar with
  | [] => Some []
  | xy :: rest =>
      match nth_error height i with
      | None => None
      | Some z_i =>
          match stackHeight height rest (S i) with
          | None => None
          | Some l => Some ((fst xy, snd xy, z_i) :: l)
          end
      end
  end.

(** Lines 592-686: the output is read from the generator, the planar CoM
    trajectory is integrated and the height stacked on it. *)
Definition publish (p : Impl) : outcome (bool * Impl) :=
  let g := generator p in
  let contactStatus :=
    {| leftFootInContact := fst (getFeetStandingPeriods g);
       rightFootInContact := snd (getFeetStandingPeriods g);
       UsedLeftAsFixed := getWhenUseLeftAsFixed g |} in
  let steps := {| leftSteps := getLeftSteps g; rightSteps := getRightSteps g |} in
  let dcmTrajectory := DCMTrajectory.mk (getDCMPosition g) (getDCMVelocity g) in
  let time := Input.initTime (input p) in
  let state0 :=
    v4_of_pair (initialPlanarPosition (Input.comInitialState (input p)))
               (initialPlanarVelocity (Input.comInitialState (input p))) in
  match dynamics (comSystem p), integrator (comSystem p) with
  | Some sys, Some step =>
      let sys := snd (setState state0 sys) in
      match integrateCoM (Parameters.dt (parameters p))
                         (DCMTrajectory.velocity dcmTrajectory)
                         (DCMTrajectory.position dcmTrajectory) 0 time sys with
      | None => Faulted
      | Some (positions, velocities, accelerations, sys) =>
          let p := set_comSystem {| dynamics := Some sys; integrator := Some step |} p in
          let p := call_ AddCoMHeightTrajectoryGenerator p in
          let g := generator p in
          let comHeight :=
            COMHeightTrajectory.mk (getCoMHeightTrajectory g) (getCoMHeightVelocity g)
                                   (getCoMHeightAccelerationProfile g) in
          let p := set_comHeightTrajectory comHeight p in
          match stackHeight (COMHeightTrajectory.position comHeight) positions 0,
                stackHeight (COMHeightTrajectory.velocity comHeight) velocities 0,
                stackHeight (COMHeightTrajectory.acceleration comHeight) accelerations 0
          with
          | Some position, Some velocity, Some acceleration =>
              let comTrajectory := COMTrajectory.mk position velocity acceleration in
              let p :=
                set_output
                  (Output.mk contactStatus steps dcmTrajectory comTrajectory
                             (getMergePoints g)) p in
              Returned (true, set_state Running p)
          | _, _, _ => Faulted
          end
      end
  | _, _ => Faulted
  end.

Definition advance (uninit : Vector2d) (p : Impl) : outcome (bool * Impl) :=
  if FSM_eqb (state p) NotInitialized then Returned (false, p)
  else
    let p := call_ AddDCMTrajectoryGenerator p in
    let initTime := to_seconds (Input.initTime (input p)) in
    let p := set_initTime (Input.initTime (input p)) p in
    let dt := to_seconds (Parameters.dt (parameters p)) in
    let '(ok, p) :=
      if FSM_eqb (state p) Running then replan uninit initTime dt p else (true, p) in
    if negb ok then Returned (false, p) else publish p.

(** ** getContactPhaseList *)

(** The contact phase list returned, the errors logged and the planner
    afterwards. *)
Definition getContactPhaseList (p : Impl)
  : ContactPhaseList ContactList * list LogEntry * Impl :=
  let contactPhaseList := emptyContactPhaseList in
  if negb (isOutputValid p)
  then (contactPhaseList,
        [LogError "[UnicycleTrajectoryPlanner::getContactPhaseList] The output is not valid. Returning an empty Contact Phase List."], p)
  else
    let ContactListMap : ContactListMap ContactList := [] in
    let '(leftStepPhases, rightStepPhases) := getStepPhases (generator p) in
    match getContactList (initTime p) (Parameters.dt (parameters p))
                         (leftFootInContact (Output.contactStatus (output p)))
                         (leftSteps (Output.steps (output p)))
                         (Parameters.leftContactFrameIndex (parameters p))
                         "left_foot" with
    | None =>
        (contactPhaseList,
         [LogError "[UnicycleTrajectoryPlanner::getContactPhaseList] Error while getting the left contact list. Returning an empty Contact Phase List."],
         p)
    | Some leftContactList =>
        match getContactList (initTime p) (Parameters.dt (parameters p))
                             (rightFootInContact (Output.contactStatus (output p)))
                             (rightSteps (Output.steps (output p)))
                             (Parameters.rightContactFrameIndex (parameters p))
                             "right_foot" with
        | None =>
            (contactPhaseList,
             [LogError "[UnicycleTrajectoryPlanner::getContactPhaseList] Error while getting the right contact list. Returning an empty Contact Phase List."],
             p)
        | Some rightContactList =>
            let ContactListMap := map_assign "left_foot" leftContactList ContactListMap in
            let ContactListMap := map_assign "right_foot" rightContactList ContactListMap in
            (setLists ContactListMap contactPhaseList, [], p)
        end
    end.

(** ** initialize *)

(** Modelled from the spec: [Math::StandardAccelerationOfGravitation] is
    declared in a header that is not among the sources; the spec gives
    [g = 9.81]. *)
Definition StandardAccelerationOfGravitation : R := 9.81.

(** A statement of the configuration part of [initialize]:
    [ok = ok && generator.f(...)] is [Checked (F ...)], and a call whose
    result is not read is [Unchecked (F ...)]. *)
Inductive Stmt : Type :=
| Checked (c : GenCall)
| Unchecked (c : GenCall).

Definition stmt_call (s : Stmt) : GenCall :=
  match s with Checked c | Unchecked c => c end.

(** The statements run in order; a checked call is skipped once [ok] is
    false. *)
Fixpoint run (script : list Stmt) (ok : bool) (p : Impl) : bool * Impl :=
  match script with
  | [] => (ok, p)
  | Checked c :: script' =>
      if ok then run script' (fst (call c p)) (snd (call c p)) else run script' false p
  | Unchecked c :: script' => run script' ok (call_ c p)
  end.

(** Lines 320-343. *)
Definition configureUnicyclePlanner (l : Locals.t) (q : Parameters.t) : list Stmt :=
  [ Checked (SetDesiredPersonDistance (fst (Parameters.referencePointDistance q))
                                      (snd (Parameters.referencePointDistance q)));
    Checked (SetPersonFollowingControllerGain (Locals.unicycleGain l));
    Checked (SetSlowWhenTurnGain (Locals.slowWhenTurningGain l));
    Checked (SetSlowWhenBackwardFactor (Locals.slowWhenBackwardFactor l));
    Checked (SetSlowWhenSidewaysFactor (Locals.slowWhenBackwardFactor l));
    Checked (SetMaxStepLength (Locals.maxStepLength l) (Locals.maxLengthBackwardFactor l));
    Checked (SetMaximumIntegratorStepSize (to_seconds (Parameters.dt q)));
    Checked (SetWidthSetting (Locals.minWidth l) (Parameters.nominalWidth q));
    Checked (SetMaxAngleVariation (Locals.maxAngleVariation l));
    Checked (SetMinimumAngleForNewSteps (Locals.minAngleVariation l));
    Checked (SetCostWeights (Locals.positionWeight l) (Locals.timeWeight l));
    Checked (SetStepTimings (Locals.minStepDuration l) (Locals.maxStepDuration l)
                            (Locals.nominalDuration l));
    Checked (SetPlannerPeriod (to_seconds (Parameters.dt q)));
    Checked (SetMinimumStepLength (Locals.minStepLength l));
    Checked (SetSaturationsConservativeFactors (fst (Locals.saturationFactors l))
                                               (snd (Locals.saturationFactors l)));
    Unchecked (SetLeftFootYawOffsetInRadians (Parameters.leftYawDeltaInRad q));
    Unchecked (SetRightFootYawOffsetInRadians (Parameters.rightYawDeltaInRad q));
    Unchecked (AddTerminalStep (Locals.terminalStep l));
    Unchecked (StartWithLeft (Locals.startWithLeft l));
    Unchecked (ResetStartingFootIfStill (Locals.startWithSameFoot l)) ].

(** Line 363. *)
Definition omega (comHeight : R) : R :=
  sqrt (StandardAccelerationOfGravitation / comHeight).

(** Lines 347-366. *)
Definition configureGenerator (l : Locals.t) (unicycleController : UnicycleController)
  : list Stmt :=
  [ Checked (SetUnicycleController unicycleController);
    Checked (SetSwitchOverSwingRatio (Locals.switchOverSwingRatio l));
    Checked (SetTerminalHalfSwitchTime (Locals.lastStepSwitchTime l));
    Checked (SetPauseConditions (Locals.maxStepDuration l) (Locals.nominalDuration l));
    Checked (SetMergePointRatio (fst (Locals.mergePointRatios l))
                                (snd (Locals.mergePointRatios l)));
    Unchecked (SetPauseActive (Locals.isPauseActive l));
    Unchecked AddCoMHeightTrajectoryGenerator;
    Checked (SetCoMHeightSettings (Locals.comHeight l) (Locals.comHeightDelta l));
    Unchecked AddDCMTrajectoryGenerator;
    Unchecked (SetFootOriginOffset (Locals.leftZMPDelta l) (Locals.rightZMPDelta l));
    Unchecked (SetOmega (omega (Locals.comHeight l)));
    Unchecked (SetFirstDCMTrajectoryMode FifthOrderPoly);
    Checked (SetLastStepDCMOffsetPercentage (Locals.lastStepDCMOffset l)) ].

(** A system that [std::make_shared] has just created; the planner sets its
    matrices and its state before it reads them. *)
Definition newSystem : LinearTimeInvariantSystem :=
  {| lti_A := M4 v4_zero v4_zero v4_zero v4_zero;
     lti_B := M4 v4_zero v4_zero v4_zero v4_zero;
     lti_state := v4_zero;
     lti_controlInput := v4_zero |}.

(** Lines 376-377. *)
Definition systemMatrixA (omega : R) : Matrix4d := m4_scale (- omega) m4_identity.
Definition systemMatrixB (omega : R) : Matrix4d := m4_opp (systemMatrixA omega).

(** Lines 369-383: the new system and integrator, and the four checked calls
    on them.  Modelled from the spec: [setDynamicalSystem] and
    [setIntegrationStep] belong to the integrator, which is not among the
    sources; they store their argument and return true. *)
Definition initializeCOMSystem (omega : R) (dT : nanoseconds) (ok : bool)
  : bool * COMSystem :=
  let A := systemMatrixA omega in
  let B := systemMatrixB omega in
  if ok
  then
    let '(ok, sys) := setSystemMatrices A B newSystem in
    let '(ok, sys) := if ok then setState v4_zero sys else (false, sys) in
    if ok
    then (true, {| dynamics := Some sys; integrator := Some dT |})
    else (false, {| dynamics := None; integrator := None |})
  else (false, {| dynamics := None; integrator := None |}).

Definition generateFirstTrajectory (p : Impl) : bool * Impl :=
  let p := call_ ClearPersonFollowingDesiredTrajectory p in
  let p := call_ (SetDesiredDirectControl 0.0 0.0 0.0) p in
  let p := call_ ClearLeftSteps p in
  let p := call_ ClearRightSteps p in
  let initTime := 0 in
  let endTime := initTime + to_seconds (Parameters.plannerHorizon (parameters p)) in
  let dt := to_seconds (Parameters.dt (parameters p)) in
  let m_personFollowingDesiredPoint : Vector2d :=
    (fst (Parameters.referencePointDistance (parameters p)),
     snd (Parameters.referencePointDistance (parameters p))) in
  let '(ok, p) :=
    call (AddPersonFollowingDesiredTrajectoryPoint initTime m_personFollowingDesiredPoint) p in
  if negb ok then (false, p)
  else
    let '(ok, p) :=
      call (AddPersonFollowingDesiredTrajectoryPoint endTime m_personFollowingDesiredPoint) p in
    if negb ok then (false, p)
    else
      let '(ok, p) := call (Generate initTime dt endTime) p in
      if negb ok then (false, p) else (true, p).

(** [handler] is [None] when [handler.lock()] is null.  [u] and
    [uninitController] give the values of the locals declared without an
    initialiser.  The debug output of lines 388-424 only reads the generator
    and is left out. *)
Definition initialize (handler : option IParametersHandler) (u : Locals.t)
  (uninitController : UnicycleController) (p : Impl) : bool * Impl :=
  match handler with
  | None => (false, p)
  | Some ptr =>
      let '(ok, l, q) := parseParameters ptr u (parameters p) in
      let p := set_parameters q p in
      let '(ok, p) := run (configureUnicyclePlanner l q) ok p in
      let '(ok, unicycleController) :=
        if ok
        then setUnicycleControllerFromString (Locals.unicycleControllerAsString l)
                                             uninitController
        else (false, uninitController) in
      let '(ok, p) := run (configureGenerator l unicycleController) ok p in
      let '(ok, com) :=
        initializeCOMSystem (omega (Locals.comHeight l)) (Parameters.dt q) ok in
      let p := set_comSystem com p in
      let '(ok, p) := if ok then generateFirstTrajectory p else (false, p) in
      let p := if ok then set_state Initialized p else p in
      (ok, p)
  end.

(** ** Predicates used in the statements *)

(** What a generator call leaves alone. *)
Definition sameButGenerator (p p' : Impl) : Prop :=
  state p' = state p /\ output p' = output p /\ input p' = input p /\
  parameters p' = parameters p /\ comSystem p' = comSystem p /\
  initTime p' = initTime p /\ comHeightTrajectory p' = comHeightTrajectory p.

(** The generator after the calls [cs], and whether it then accepts [c]. *)
Definition gen_after (cs : list GenCall) (g : G) : G :=
  fold_left (fun g c => snd (gen_exec c g)) cs g.
Definition accepts (cs : list GenCall) (c : GenCall) (g : G) : bool :=
  fst (gen_exec c (gen_after cs g)).

(** The calls of the re-planning branch, as [advance uninit p] makes them. *)
Definition endTimeOf (p : Impl) : R :=
  to_seconds (Input.initTime (input p)) + to_seconds (Parameters.plannerHorizon (parameters p)).
Definition waypointCall (uninit : Vector2d) (p : Impl) : GenCall :=
  AddPersonFollowingDesiredTrajectoryPoint (endTimeOf p) (desiredPointInAbsoluteFrame uninit p).
Definition directControlCall (p : Impl) : GenCall :=
  SetDesiredDirectControl (coeff3 (Input.plannerInput (input p)) 0)
                          (coeff3 (Input.plannerInput (input p)) 1)
                          (coeff3 (Input.plannerInput (input p)) 2).
Definition dcmStateCall (p : Impl) : GenCall :=
  SetDCMInitialState (Input.dcmInitialState (input p)).
Definition reGenerateCall (p : Impl) : GenCall :=
  ReGenerate (to_seconds (Input.initTime (input p)))
             (to_seconds (Parameters.dt (parameters p)))
             (endTimeOf p)
             (negb (Input.isLeftLastSwinging (input p)))
             (SE3d.x (Input.measuredTransform (input p)),
              SE3d.y (Input.measuredTransform (input p)))
             (coeff3 (SE3d.asRPY (Input.measuredTransform (input p))) 2).

(** The calls of the re-planning branch up to the one that is refused, all
    of them when none is. *)
Definition replanCalls (uninit : Vector2d) (p : Impl) : list GenCall :=
  let g := generator p in
  let c0 := [AddDCMTrajectoryGenerator; ClearPersonFollowingDesiredTrajectory] in
  let c1 := c0 ++ [waypointCall uninit p] in
  let c2 := c1 ++ [directControlCall p; dcmStateCall p] in
  let c3 := c2 ++ [reGenerateCall p] in
  if negb (accepts c0 (waypointCall uninit p) g) then c1
  else if negb (accepts (c1 ++ [directControlCall p]) (dcmStateCall p) g) then c2
  else c3.

(** The collaborator refuses the new waypoint, the DCM initial state or the
    re-generation. *)
Inductive Rejects (uninit : Vector2d) (p : Impl) : Prop :=
| RejectsWaypoint :
    accepts [AddDCMTrajectoryGenerator; ClearPersonFollowingDesiredTrajectory]
            (waypointCall uninit p) (generator p) = false ->
    Rejects uninit p
| RejectsDCMInitialState :
    accepts [AddDCMTrajectoryGenerator; ClearPersonFollowingDesiredTrajectory]
            (waypointCall uninit p) (generator p) = true ->
    accepts [AddDCMTrajectoryGenerator; ClearPersonFollowingDesiredTrajectory;
             waypointCall uninit p; directControlCall p]
            (dcmStateCall p) (generator p) = false ->
    Rejects uninit p
| RejectsReGenerate :
    accepts [AddDCMTrajectoryGenerator; ClearPersonFollowingDesiredTrajectory]
            (waypointCall uninit p) (generator p) = true ->
    accepts [AddDCMTrajectoryGenerator; ClearPersonFollowingDesiredTrajectory;
             waypointCall uninit p; directControlCall p]
            (dcmStateCall p) (generator p) = true ->
    accepts [AddDCMTrajectoryGenerator; ClearPersonFollowingDesiredTrajectory;
             waypointCall uninit p; directControlCall p; dcmStateCall p]
            (reGenerateCall p) (generator p) = false ->
    Rejects uninit p.

(** The CoM system is set up, and the generator [g] holds at least as many
    DCM velocities and, once asked for its height generator, CoM heights,
    height velocities and height accelerations as DCM positions: what
    lines 592-686 need to run to their end. *)
Definition samplesAligned (g : G) : bool :=
  let g' := snd (gen_exec AddCoMHeightTrajectoryGenerator g) in
  let n := List.length (getDCMPosition g) in
  (n <=? List.length (getDCMVelocity g))%nat
  && (n <=? List.length (getCoMHeightTrajectory g'))%nat
  && (n <=? List.length (getCoMHeightVelocity g'))%nat
  && (n <=? List.length (getCoMHeightAccelerationProfile g'))%nat.

Definition comSystemReady (p : Impl) : bool :=
  match dynamics (comSystem p), integrator (comSystem p) with
  | Some _, Some _ => true
  | _, _ => false
  end.

(** The three CoM sequences have as many samples as the DCM positions. *)
Definition comAlignedWithDCM (o : Output.t) : Prop :=
  let n := List.length (DCMTrajectory.position (Output.dcmTrajectory o)) in
  List.length (COMTrajectory.position (Output.comTrajectory o)) = n /\
  List.length (COMTrajectory.velocity (Output.comTrajectory o)) = n /\
  List.length (COMTrajectory.acceleration (Output.comTrajectory o)) = n.

(** The two calls of [getContactPhaseList] on the contact assembler. *)
Definition leftContactListOf (p : Impl) : option ContactList :=
  getContactList (initTime p) (Parameters.dt (parameters p))
                 (leftFootInContact (Output.contactStatus (output p)))
                 (leftSteps (Output.steps (output p)))
                 (Parameters.leftContactFrameIndex (parameters p)) "left_foot".
Definition rightContactListOf (p : Impl) : option ContactList :=
  getContactList (initTime p) (Parameters.dt (parameters p))
                 (rightFootInContact (Output.contactStatus (output p)))
                 (rightSteps (Output.steps (output p)))
                 (Parameters.rightContactFrameIndex (parameters p)) "right_foot".

(** One call, on a planner, of a member function that can change it (for
    [advance], a call that returns); and any number of them. *)
Inductive cycle : Impl -> Impl -> Prop :=
| CycleInitialize (handler : option IParametersHandler) (u : Locals.t)
    (uninitController : UnicycleController) (p : Impl) :
    cycle p (snd (initialize handler u uninitController p))
| CycleSetRobotContactFrames (model : Model) (p : Impl) :
    cycle p (snd (setRobotContactFrames model p))
| CycleSetInput (i : Input.t) (p : Impl) : cycle p (snd (setInput i p))
| CycleAdvance (uninit : Vector2d) (p : Impl) (b : bool) (p' : Impl) :
    advance uninit p = Returned (b, p') -> cycle p p'.

Inductive cycles : Impl -> Impl -> Prop :=
| CyclesNone (p : Impl) : cycles p p
| CyclesMore (p q r : Impl) : cycles p q -> cycle q r -> cycles p r.

(** The calls of [generateFirstTrajectory] when none is refused. *)
Definition firstTrajectoryCalls (q : Parameters.t) : list GenCall :=
  [ ClearPersonFollowingDesiredTrajectory;
    SetDesiredDirectControl 0.0 0.0 0.0;
    ClearLeftSteps;
    ClearRightSteps;
    AddPersonFollowingDesiredTrajectoryPoint 0
      (fst (Parameters.referencePointDistance q), snd (Parameters.referencePointDistance q));
    AddPersonFollowingDesiredTrajectoryPoint (0 + to_seconds (Parameters.plannerHorizon q))
      (fst (Parameters.referencePointDistance q), snd (Parameters.referencePointDistance q));
    Generate 0 (to_seconds (Parameters.dt q)) (0 + to_seconds (Parameters.plannerHorizon q)) ].

(** ** What initialize reads, written directly *)

Definition is_some {A : Type} (o : option A) : bool :=
  match o with Some _ => true | None => false end.

(** The seven parameters read with [loadParam], without a fallback. *)
Definition requiredPresent (h : IParametersHandler) : bool :=
  is_some (getVector2d h "referencePosition")
  && is_some (getVector2d h "saturationFactors")
  && is_some (getVector2d h "mergePointRatios")
  && is_some (getVector2d h "leftZMPDelta")
  && is_some (getVector2d h "rightZMPDelta")
  && is_some (getString h "leftContactFrameName")
  && is_some (getString h "rightContactFrameName").

(** The configured control type, "direct" when there is none, is one of the
    two names that [setUnicycleControllerFromString] knows. *)
Definition controlTypeValid (h : IParametersHandler) : bool :=
  let s := orDefault (getString h "controlType") "direct"%string in
  String.eqb s "personFollowing" || String.eqb s "direct".

(** The locals of [initialize] once every parameter has been read, the
    four required vectors being given. *)
Definition resolvedLocals (h : IParametersHandler)
  (saturationFactors mergePointRatios leftZMPDelta rightZMPDelta : Vector2d) : Locals.t :=
  Locals.mk
    (orDefault (getString h "controlType") "direct"%string)
    (orDefault (getDouble h "unicycleGain") 10.0)
    (orDefault (getDouble h "slowWhenTurningGain") 2.0)
    (orDefault (getDouble h "slowWhenBackwardFactor") 0.4)
    (orDefault (getDouble h "slowWhenSidewaysFactor") 0.2)
    (orDefault (getDouble h "positionWeight") 1.0)
    (orDefault (getDouble h "timeWeight") 2.5)
    (orDefault (getDouble h "maxStepLength") 0.32)
    (orDefault (getDouble h "minStepLength") 0.01)
    (orDefault (getDouble h "maxLengthBackwardFactor") 0.8)
    (orDefault (getDouble h "minWidth") 0.14)
    (orDefault (getDouble h "minStepDuration") 0.65)
    (orDefault (getDouble h "maxStepDuration") 1.5)
    (orDefault (getDouble h "nominalDuration") 0.8)
    (orDefault (getDouble h "maxAngleVariation") 18.0)
    (orDefault (getDouble h "minAngleVariation") 5.0)
    saturationFactors
    (orDefault (getBool h "swingLeft") false)
    (orDefault (getBool h "startAlwaysSameFoot") true)
    (orDefault (getBool h "terminalStep") true)
    mergePointRatios
    (orDefault (getDouble h "switchOverSwingRatio") 0.2)
    (orDefault (getDouble h "lastStepSwitchTime") 0.3)
    (orDefault (getBool h "isPauseActive") true)
    (orDefault (getDouble h "comHeight") 0.70)
    (orDefault (getDouble h "comHeightDelta") 0.01)
    leftZMPDelta rightZMPDelta
    (orDefault (getDouble h "lastStepDCMOffset") 0.5)
    (orDefault (getDouble h "dt") 0.002)
    (orDefault (getDouble h "plannerHorizon") 20.0).

(** [m_pImpl->parameters] once every parameter has been read, the three
    required values being given; the period and the horizon are the casts
    of the doubles read, and the frame indices are those of [q]. *)
Definition resolvedParameters (h : IParametersHandler) (q : Parameters.t)
  (referencePosition : Vector2d) (leftContactFrameName rightContactFrameName : string)
  : Parameters.t :=
  Parameters.mk
    (nanoseconds_of_seconds (orDefault (getDouble h "dt") 0.002))
    (nanoseconds_of_seconds (orDefault (getDouble h "plannerHorizon") 20.0))
    (orDefault (getDouble h "nominalWidth") 0.20)
    referencePosition
    (deg2rad (orDefault (getDouble h "leftYawDeltaInDeg") 0.0))
    (deg2rad (orDefault (getDouble h "rightYawDeltaInDeg") 0.0))
    leftContactFrameName rightContactFrameName
    (Parameters.leftContactFrameIndex q) (Parameters.rightContactFrameIndex q).

(** The calls of a script whose result is not read: the ones still made
    once [ok] is false. *)
Definition isUnchecked (s : Stmt) : bool :=
  match s with Checked _ => false | Unchecked _ => true end.
Definition uncheckedCalls (script : list Stmt) : list GenCall :=
  map stmt_call (filter isUnchecked script).

(** Squared distance of two points of the plane. *)
Definition dist2 (a b : Vector2d) : R :=
  (fst a - fst b) * (fst a - fst b) + (snd a - snd b) * (snd a - snd b).

(** The calls of [advance] in the state [Running] when none is refused and
    the output is read. *)
Definition replanningAdvanceCalls (uninit : Vector2d) (p : Impl) : list GenCall :=
  [ AddDCMTrajectoryGenerator;
    ClearPersonFollowingDesiredTrajectory;
    waypointCall uninit p;
    directControlCall p;
    dcmStateCall p;
    reGenerateCall p;
    AddCoMHeightTrajectoryGenerator ].

(** The planar part and the height of a CoM sample. *)
Definition planar (v : Vector3d) : Vector2d := (fst (fst v), snd (fst v)).
Definition height (v : Vector3d) : R := snd v.


End Planner.

Arguments Impl G : clear implicits.

(** * A small instance

    A generator, a parameters handler, a kinematic model and a contact
    assembler on which the planner can be run. *)
Module Example.

(** The state is the number of trajectories generated so far.  Every call
    is accepted, except a re-generation whose stance foot is the left one;
    once a trajectory exists the generator holds two samples. *)
Definition toy_exec (c : GenCall) (g : nat) : bool * nat :=
  match c with
  | Generate _ _ _ => (true, S g)
  | ReGenerate _ _ _ correctLeft _ _ => if correctLeft then (false, g) else (true, S g)
  | _ => (true, g)
  end.

Definition toy_samples {A : Type} (a : A) (g : nat) : list A :=
  match g with O => [] | S _ => [a; a] end.

#[export] Instance toyGenerator : UnicycleGenerator nat :=
  {| gen_exec := toy_exec;
     getLeftSteps := fun g => toy_samples (Step.mk (0, 0.1) 0 0) g;
     getRightSteps := fun g => toy_samples (Step.mk (0, -0.1) 0 0) g;
     getStepPhases := fun g => (toy_samples Stance g, toy_samples Stance g);
     getFeetStandingPeriods := fun g => (toy_samples true g, toy_samples true g);
     getWhenUseLeftAsFixed := fun g => toy_samples true g;
     getDCMPosition := fun g => toy_samples (0, 0) g;
     getDCMVelocity := fun g => toy_samples (0, 0) g;
     getCoMHeightTrajectory := fun g => toy_samples 0.7 g;
     getCoMHeightVelocity := fun g => toy_samples 0 g;
     getCoMHeightAccelerationProfile := fun g => toy_samples 0 g;
     getMergePoints := fun g => toy_samples 1%nat g |}.

(** A contact list is the initial time and the name it was built for; it
    cannot be built for an unresolved frame. *)
#[export] Instance toyAssembler : ContactAssembler (nanoseconds * string) :=
  {| getContactList := fun initTime dt inContact steps frameIndex name =>
       if Z.eqb frameIndex FRAME_INVALID_INDEX then None else Some (initTime, name) |}.

(** A cast for the examples: the exact product, truncated toward zero. *)
Definition truncate (x : R) : Z :=
  if Rle_dec 0 x then Int_part x else (- Int_part (- x))%Z.

#[export] Instance toyCast : DurationCast :=
  {| nanoseconds_of_seconds := fun x => truncate (x * 1e9) |}.

Fixpoint lookup {A : Type} (name : string) (l : list (string * A)) : option A :=
  match l with
  | [] => None
  | (k, v) :: l' => if String.eqb k name then Some v else lookup name l'
  end.

(** The required parameters only: every other one takes its default. *)
Definition requiredOnly : IParametersHandler :=
  {| getDouble := fun _ => None;
     getString := fun name =>
       lookup name [("leftContactFrameName", "l_sole"); ("rightContactFrameName", "r_sole")]%string;
     getBool := fun _ => None;
     getVector2d := fun name =>
       lookup name [("referencePosition"%string, (0.1, 0.0));
                    ("saturationFactors"%string, (0.7, 0.7));
                    ("mergePointRatios"%string, (0.4, 0.4));
                    ("leftZMPDelta"%string, (0.0, 0.0));
                    ("rightZMPDelta"%string, (0.0, 0.0))] |}.

Definition robot : Model :=
  {| loadRobotModel := true;
     getFrameIndex := fun name =>
       if String.eqb name "l_sole" then 1%Z
       else if String.eqb name "r_sole" then 2%Z
       else FRAME_INVALID_INDEX |}.

(** A model without the left sole. *)
Definition robotWithoutLeftSole : Model :=
  {| loadRobotModel := true;
     getFrameIndex := fun name =>
       if String.eqb name "r_sole" then 2%Z else FRAME_INVALID_INDEX |}.

Definition junkLocals : Locals.t :=
  Locals.mk EmptyString 0 0 0 0 0 0 0 0 0 0 0 0 0 0 0 (0, 0) true true true (0, 0)
            0 0 true 0 0 (0, 0) (0, 0) 0 0 0.

Definition zeroCOMState : COMInitialState :=
  {| initialPlanarPosition := (0, 0); initialPlanarVelocity := (0, 0) |}.

Definition dummyInput : Input.t := generateDummyUnicycleTrajectoryPlannerInput zeroCOMState.

(** The dummy input at five seconds, the left foot having swung last and a
    command of one along x and two along y. *)
Definition laterInput : Input.t :=
  Input.mk (1, 2, 0) (Input.dcmInitialState dummyInput) zeroCOMState true
           5000000000%Z (Input.measuredTransform dummyInput).

(** A planner as its constructor leaves it. *)
Definition fresh : Impl nat :=
  mkImpl NotInitialized
    (Output.mk {| leftFootInContact := []; rightFootInContact := []; UsedLeftAsFixed := [] |}
               {| leftSteps := []; rightSteps := [] |}
               (DCMTrajectory.mk [] []) (COMTrajectory.mk [] [] []) [])
    dummyInput
    (Parameters.mk 0%Z 0%Z 0 (0, 0) 0 0 EmptyString EmptyString 0%Z 0%Z)
    O [] {| dynamics := None; integrator := None |} 0%Z
    (COMHeightTrajectory.mk [] [] []).

Definition planner_of (o : outcome (bool * Impl nat)) : Impl nat :=
  match o with Returned (_, p) => p | Faulted => fresh end.

(** The planner initialised, its contact frames resolved, and advanced once
    on the input [laterInput]. *)
Definition initialized : Impl nat :=
  Eval cbv -[IZR Rdiv Rminus sqrt PI truncate] in
    snd (initialize (Some requiredOnly) junkLocals DIRECT fresh).
Definition framed : Impl nat :=
  Eval cbv -[IZR Rdiv Rminus sqrt PI truncate] in
    snd (setRobotContactFrames robot initialized).
Definition running : Impl nat :=
  planner_of (advance (0, 0) (snd (setInput laterInput framed))).

(** The planner in the state [Running] that has received the dummy input:
    the stance foot is the left one, so the re-generation is refused. *)
Definition rejecting : Impl nat := snd (setInput dummyInput running).

(** The planner after [advance] on [rejecting]. *)
Definition rejected : Impl nat :=
  mkImpl (state rejecting) (output rejecting) (input rejecting) (parameters rejecting)
         (gen_after (replanCalls (0, 0) rejecting) (generator rejecting))
         (calls rejecting ++ replanCalls (0, 0) rejecting)
         (comSystem rejecting) (Input.initTime (input rejecting))
         (comHeightTrajectory rejecting).

(** A handler without any parameter. *)
Definition emptyHandler : IParametersHandler :=
  {| getDouble := fun _ => None;
     getString := fun _ => None;
     getBool := fun _ => None;
     getVector2d := fun _ => None |}.

(** The required parameters, and yaw offsets of 10 and -10 degrees. *)
Definition withYaw : IParametersHandler :=
  {| getDouble := fun name =>
       lookup name [("leftYawDeltaInDeg"%string, 10); ("rightYawDeltaInDeg"%string, -10)];
     getString := getString requiredOnly;
     getBool := getBool requiredOnly;
     getVector2d := getVector2d requiredOnly |}.

Definition initializedWithYaw : Impl nat :=
  Eval cbv -[IZR Rdiv Rminus sqrt PI truncate] in
    snd (initialize (Some withYaw) junkLocals DIRECT fresh).


End Example.

(** * Properties *)

Section Properties.

Context {G : Type} {generatorOps : UnicycleGenerator G}.
Context {ContactList : Type} {assembler : ContactAssembler ContactList}.
Context {durationCast : DurationCast}.

Implicit Types (p q : Impl G) (uninit : Vector2d) (c : GenCall).

(** ** The state machine and the frame of a generator call *)

Lemma FSM_eqb_eq (a b : FSM) : FSM_eqb a b = true <-> a = b.
Proof. destruct a, b; simpl; split; congruence. Qed.

Lemma FSM_eqb_neq (a b : FSM) : FSM_eqb a b = false <-> a <> b.
Proof. destruct a, b; simpl; split; congruence. Qed.

Lemma sameButGenerator_refl p : sameButGenerator p p.
Proof. repeat split. Qed.

Lemma sameButGenerator_trans p q r :
  sameButGenerator p q -> sameButGenerator q r -> sameButGenerator p r.
Proof.
  unfold sameButGenerator; intros (?&?&?&?&?&?&?) (?&?&?&?&?&?&?).
  repeat split; congruence.
Qed.

Lemma call_frame c p : sameButGenerator p (snd (call c p)).
Proof. repeat split. Qed.

Lemma call__frame c p : sameButGenerator p (call_ c p).
Proof. apply call_frame. Qed.

Create HintDb planner.
#[local] Hint Resolve sameButGenerator_refl call_frame call__frame : planner.

(** In a sequence of generator calls with early returns, name the result of
    each call and split on it. *)
Ltac split_on_calls :=
  repeat match goal with
         | |- context [let '(_, _) := call ?c ?q in _] =>
             change (call c q) with (fst (call c q), snd (call c q)); cbv iota beta
         | |- context [if negb ?b then _ else _] => destruct b; simpl negb; cbv iota
         end.

(** ** Before initialisation *)

(** C6.  In the state [NotInitialized], [setInput], [advance] and
    [setRobotContactFrames] return false and the planner is, field by field,
    the one they were called on. *)
Theorem C6_not_initialized_calls_fail p (i : Input.t) (model : Model) uninit :
  state p = NotInitialized ->
  setInput i p = (false, p) /\
  advance uninit p = Returned (false, p) /\
  setRobotContactFrames model p = (false, p).
Proof.
  intros H.
  unfold setInput, advance, setRobotContactFrames.
  rewrite H; simpl.
  repeat split.
Qed.

(** ** Contact frames *)

Lemma setRobotContactFrames_false model p :
  fst (setRobotContactFrames model p) = false ->
  state (snd (setRobotContactFrames model p)) = NotInitialized.
Proof.
  unfold setRobotContactFrames.
  destruct (FSM_eqb (state p) NotInitialized) eqn:E.
  - intros _; simpl. now apply FSM_eqb_eq.
  - destruct (negb (loadRobotModel model)); [reflexivity|].
    cbv zeta.
    destruct (Z.eqb _ FRAME_INVALID_INDEX); [reflexivity|].
    destruct (Z.eqb _ FRAME_INVALID_INDEX); [reflexivity|].
    simpl; discriminate.
Qed.

(** C7.  On an initialised planner, a model in which the configured left or
    right contact-frame name has no valid index makes
    [setRobotContactFrames] return false and leave the planner in
    [NotInitialized]; [advance] on that planner returns false. *)
Theorem C7_unresolved_frame_resets p (model : Model) uninit :
  state p <> NotInitialized ->
  getFrameIndex model (Parameters.leftContactFrameName (parameters p)) = FRAME_INVALID_INDEX \/
  getFrameIndex model (Parameters.rightContactFrameName (parameters p)) = FRAME_INVALID_INDEX ->
  fst (setRobotContactFrames model p) = false /\
  state (snd (setRobotContactFrames model p)) = NotInitialized /\
  advance uninit (snd (setRobotContactFrames model p))
  = Returned (false, snd (setRobotContactFrames model p)).
Proof.
  intros Hs Hframe.
  assert (Hret : fst (setRobotContactFrames model p) = false).
  { unfold setRobotContactFrames.
    apply FSM_eqb_neq in Hs; rewrite Hs.
    destruct (negb (loadRobotModel model)); [reflexivity|].
    cbv zeta; simpl.
    destruct (Z.eqb (getFrameIndex model (Parameters.leftContactFrameName (parameters p)))
                    FRAME_INVALID_INDEX) eqn:El; [reflexivity|].
    simpl.
    destruct Hframe as [Hl | Hr].
    - rewrite Hl in El; discriminate.
    - rewrite Hr; reflexivity. }
  pose proof (setRobotContactFrames_false model p Hret) as Hst.
  repeat split; trivial.
  unfold advance; rewrite Hst; reflexivity.
Qed.

(** ** The re-planning branch *)

Lemma replan_frame uninit t dt p : sameButGenerator p (snd (replan uninit t dt p)).
Proof.
  unfold replan; cbv zeta.
  split_on_calls;
    repeat split.
Qed.

(** [advance] in the state [Running], written with the predicates of the
    statements: the re-planning calls are made and recorded, and the output
    is read only when none is refused. *)
Lemma advance_running uninit p :
  state p = Running ->
  let p1 := mkImpl (state p) (output p) (input p) (parameters p)
                   (gen_after (replanCalls uninit p) (generator p))
                   (calls p ++ replanCalls uninit p)
                   (comSystem p) (Input.initTime (input p)) (comHeightTrajectory p) in
  (Rejects uninit p /\ advance uninit p = Returned (false, p1)) \/
  (~ Rejects uninit p /\ advance uninit p = publish p1).
Proof.
  intros Hs; cbv zeta.
  unfold advance, replan, replanCalls.
  rewrite Hs; cbv zeta; simpl FSM_eqb; cbv iota.
  change (desiredPointInAbsoluteFrame uninit
            (set_initTime (Input.initTime (input (call_ AddDCMTrajectoryGenerator p)))
                          (call_ AddDCMTrajectoryGenerator p)))
    with (desiredPointInAbsoluteFrame uninit p).
  simpl.
  rewrite Hs; simpl FSM_eqb; cbv iota.
  unfold accepts, gen_after, directControlCall, reGenerateCall; simpl.
  fold (endTimeOf p). fold (waypointCall uninit p). fold (dcmStateCall p).
  destruct (fst (gen_exec (waypointCall uninit p) _)) eqn:E1; simpl.
  2:{ left; split.
      - apply RejectsWaypoint; exact E1.
      - now rewrite <- !app_assoc. }
  destruct (fst (gen_exec (dcmStateCall p) _)) eqn:E2; simpl.
  2:{ left; split.
      - apply RejectsDCMInitialState; [exact E1 | exact E2].
      - now rewrite <- !app_assoc. }
  destruct (fst (gen_exec (ReGenerate _ _ _ _ _ _) _)) eqn:E3; simpl.
  2:{ left; split.
      - apply RejectsReGenerate; [exact E1 | exact E2 | exact E3].
      - now rewrite <- !app_assoc. }
  right; split.
  - intros [H | H1 H2 | H1 H2 H3];
      unfold accepts, gen_after, directControlCall, reGenerateCall in *; simpl in *;
      congruence.
  - now rewrite <- !app_assoc.
Qed.


(** ** The CoM loops *)

Lemma integrateCoM_length dT velocity positions :
  forall i time sys ps vs accs sys',
    integrateCoM dT velocity positions i time sys = Some (ps, vs, accs, sys') ->
    List.length ps = List.length positions /\
    List.length vs = List.length positions /\
    List.length accs = List.length positions.
Proof.
  induction positions as [|x rest IH]; simpl; intros i time sys ps vs accs sys' H.
  - inversion H; subst; auto.
  - destruct (nth_error velocity i) as [v|]; [|discriminate].
    destruct (integrateCoM dT velocity rest (S i) _ _) as [[[[ps' vs'] accs'] s']|] eqn:E;
      [|discriminate].
    inversion H; subst; simpl.
    apply IH in E; destruct E as (?&?&?); auto.
Qed.

Lemma integrateCoM_total dT velocity positions :
  forall i time sys,
    (i + List.length positions <= List.length velocity)%nat ->
    exists r, integrateCoM dT velocity positions i time sys = Some r.
Proof.
  induction positions as [|x rest IH]; simpl; intros i time sys H.
  - eauto.
  - destruct (nth_error velocity i) as [v|] eqn:Ev.
    + edestruct (IH (S i)) as [[[[ps vs] accs] s'] E]; [lia|].
      rewrite E; eauto.
    + apply nth_error_None in Ev; lia.
Qed.

Lemma stackHeight_length height planar :
  forall i l, stackHeight height planar i = Some l -> List.length l = List.length planar.
Proof.
  induction planar as [|x rest IH]; simpl; intros i l H.
  - inversion H; reflexivity.
  - destruct (nth_error height i); [|discriminate].
    destruct (stackHeight height rest (S i)) eqn:E; [|discriminate].
    inversion H; subst; simpl; f_equal; eauto.
Qed.

Lemma stackHeight_total height planar :
  forall i, (i + List.length planar <= List.length height)%nat ->
            exists l, stackHeight height planar i = Some l.
Proof.
  induction planar as [|x rest IH]; simpl; intros i H.
  - eauto.
  - destruct (nth_error height i) as [z|] eqn:Ez.
    + edestruct (IH (S i)) as [l E]; [lia|]. rewrite E; eauto.
    + apply nth_error_None in Ez; lia.
Qed.

(** ** Reading the output *)

(** When lines 592-686 run to their end, the call returns true, the state
    is [Running], the output is the generator's and the CoM sequences are as
    long as the DCM positions. *)
Lemma publish_returned p b p' :
  publish p = Returned (b, p') ->
  b = true /\ state p' = Running /\
  comAlignedWithDCM (output p') /\
  Output.dcmTrajectory (output p')
  = DCMTrajectory.mk (getDCMPosition (generator p)) (getDCMVelocity (generator p)) /\
  Output.steps (output p')
  = {| leftSteps := getLeftSteps (generator p); rightSteps := getRightSteps (generator p) |} /\
  Output.contactStatus (output p')
  = {| leftFootInContact := fst (getFeetStandingPeriods (generator p));
       rightFootInContact := snd (getFeetStandingPeriods (generator p));
       UsedLeftAsFixed := getWhenUseLeftAsFixed (generator p) |} /\
  generator p' = snd (gen_exec AddCoMHeightTrajectoryGenerator (generator p)) /\
  calls p' = calls p ++ [AddCoMHeightTrajectoryGenerator] /\
  input p' = input p /\ parameters p' = parameters p /\ initTime p' = initTime p.
Proof.
  unfold publish; cbv zeta.
  destruct (dynamics (comSystem p)) as [sys|]; [|discriminate].
  destruct (integrator (comSystem p)) as [step|]; [|discriminate].
  destruct (integrateCoM _ _ _ _ _ _) as [[[[ps vs] accs] sys']|] eqn:E; [|discriminate].
  destruct (stackHeight _ ps 0) as [position|] eqn:E1; [|discriminate].
  destruct (stackHeight _ vs 0) as [velocity|] eqn:E2; [|discriminate].
  destruct (stackHeight _ accs 0) as [acceleration|] eqn:E3; [|discriminate].
  intros H; inversion H; subst; clear H.
  apply integrateCoM_length in E; destruct E as (Lp & Lv & La).
  apply stackHeight_length in E1, E2, E3.
  unfold comAlignedWithDCM; simpl in *.
  repeat split; congruence.
Qed.

Lemma publish_total p :
  comSystemReady p = true -> samplesAligned (generator p) = true ->
  exists p', publish p = Returned (true, p').
Proof.
  unfold comSystemReady, samplesAligned, publish; cbv zeta.
  destruct (dynamics (comSystem p)) as [sys|]; [|discriminate].
  destruct (integrator (comSystem p)) as [step|]; [|discriminate].
  intros _ H.
  repeat (apply andb_prop in H; destruct H as [H ?]).
  repeat match goal with H : (_ <=? _)%nat = true |- _ => apply Nat.leb_le in H end.
  edestruct (integrateCoM_total (Parameters.dt (parameters p))
               (DCMTrajectory.velocity
                  (DCMTrajectory.mk (getDCMPosition (generator p))
                                    (getDCMVelocity (generator p))))
               (getDCMPosition (generator p)) 0) as [[[[ps vs] accs] sys'] E];
    [simpl; lia|].
  simpl in E |- *; rewrite E.
  pose proof (integrateCoM_length _ _ _ _ _ _ _ _ _ _ E) as (Lp & Lv & La).
  edestruct (stackHeight_total
               (getCoMHeightTrajectory
                  (snd (gen_exec AddCoMHeightTrajectoryGenerator (generator p)))) ps 0)
    as [l1 E1]; [simpl; lia|].
  edestruct (stackHeight_total
               (getCoMHeightVelocity
                  (snd (gen_exec AddCoMHeightTrajectoryGenerator (generator p)))) vs 0)
    as [l2 E2]; [simpl; lia|].
  edestruct (stackHeight_total
               (getCoMHeightAccelerationProfile
                  (snd (gen_exec AddCoMHeightTrajectoryGenerator (generator p)))) accs 0)
    as [l3 E3]; [simpl; lia|].
  rewrite E1, E2, E3; eauto.
Qed.

(** ** advance, case by case *)

Lemma advance_initialized uninit p :
  state p = Initialized ->
  advance uninit p
  = publish (set_initTime (Input.initTime (input p)) (call_ AddDCMTrajectoryGenerator p)).
Proof.
  intros Hs; unfold advance.
  rewrite Hs; simpl FSM_eqb; cbv iota zeta.
  change (state (set_initTime (Input.initTime (input (call_ AddDCMTrajectoryGenerator p)))
                              (call_ AddDCMTrajectoryGenerator p)))
    with (state p).
  rewrite Hs; reflexivity.
Qed.

(** A call of [advance] that returns false leaves the state and the output
    as they were; it overwrites the initial time unless the planner was
    never initialised. *)
Lemma advance_false uninit p p' :
  advance uninit p = Returned (false, p') ->
  state p' = state p /\ output p' = output p /\ input p' = input p /\
  parameters p' = parameters p /\
  ((state p = NotInitialized /\ p' = p) \/
   (state p = Running /\ Rejects uninit p /\
    initTime p' = Input.initTime (input p) /\
    calls p' = calls p ++ replanCalls uninit p)).
Proof.
  intros H.
  destruct (state p) eqn:Hs.
  - unfold advance in H; rewrite Hs in H; simpl in H.
    inversion H; subst. rewrite Hs. auto 10.
  - rewrite (advance_initialized _ _ Hs) in H.
    apply publish_returned in H; destruct H as [H _]; discriminate.
  - destruct (advance_running uninit p Hs) as [[HR E] | [_ E]]; rewrite E in H.
    + inversion H; subst; simpl. rewrite Hs. auto 10.
    + apply publish_returned in H; destruct H as [H _]; discriminate.
Qed.

(** A call of [advance] that returns true has read the output from the
    generator as the calls of this [advance] left it. *)
Lemma advance_true uninit p p' :
  advance uninit p = Returned (true, p') ->
  exists q,
    publish q = Returned (true, p') /\
    input q = input p /\ parameters q = parameters p /\
    initTime q = Input.initTime (input p) /\
    ((state p = Initialized /\ calls q = calls p ++ [AddDCMTrajectoryGenerator] /\
      generator q = snd (gen_exec AddDCMTrajectoryGenerator (generator p))) \/
     (state p = Running /\ ~ Rejects uninit p /\
      calls q = calls p ++ replanCalls uninit p /\
      generator q = gen_after (replanCalls uninit p) (generator p))).
Proof.
  intros H.
  destruct (state p) eqn:Hs.
  - unfold advance in H; rewrite Hs in H; simpl in H; discriminate.
  - rewrite (advance_initialized _ _ Hs) in H.
    eexists; split; [exact H|]. simpl; auto 10.
  - destruct (advance_running uninit p Hs) as [[HR E] | [HR E]]; rewrite E in H.
    + discriminate.
    + eexists; split; [exact H|]. simpl; auto 10.
Qed.

(** C3.  In the state [Running], when the collaborator refuses the new
    waypoint, the DCM initial state or the re-generation, [advance] returns
    false, the output is the one published before and the state is still
    [Running]; and [advance] returns false in that state for no other
    reason. *)
Theorem C3_rejected_replan_keeps_output uninit p :
  state p = Running ->
  (Rejects uninit p ->
   exists p', advance uninit p = Returned (false, p') /\
              output p' = output p /\ state p' = Running) /\
  (forall p', advance uninit p = Returned (false, p') ->
              Rejects uninit p /\ output p' = output p /\ state p' = Running).
Proof.
  intros Hs; split.
  - intros HR.
    destruct (advance_running uninit p Hs) as [[_ E] | [Hn _]]; [|contradiction].
    eexists; split; [exact E|]; simpl; auto.
  - intros p' H.
    apply advance_false in H.
    destruct H as (Hst & Ho & _ & _ & [[Hn _] | (_ & HR & _)]); [congruence|].
    rewrite Hst; auto.
Qed.

(** ** initialize *)

Lemma run_false script : forall p, fst (run script false p) = false.
Proof.
  induction script as [|[c|c] script IH]; simpl; auto.
Qed.

Lemma run_true script :
  forall ok p,
    fst (run script ok p) = true ->
    ok = true /\ calls (snd (run script ok p)) = calls p ++ map stmt_call script.
Proof.
  induction script as [|[c|c] script IH]; simpl; intros ok p H.
  - now rewrite app_nil_r.
  - destruct ok.
    + apply IH in H; destruct H as [_ H]; split; [reflexivity|].
      rewrite H; simpl. now rewrite <- app_assoc.
    + now rewrite run_false in H.
  - apply IH in H; destruct H as [Hok H]; split; [assumption|].
    rewrite H; unfold call_; simpl. now rewrite <- app_assoc.
Qed.

Lemma run_frame script : forall ok p, sameButGenerator p (snd (run script ok p)).
Proof.
  induction script as [|[c|c] script IH]; cbn [run]; intros ok p.
  - auto with planner.
  - destruct ok; [|apply IH].
    apply sameButGenerator_trans with (snd (call c p)); auto with planner.
  - apply sameButGenerator_trans with (call_ c p); auto with planner.
Qed.

Lemma generateFirstTrajectory_frame p : sameButGenerator p (snd (generateFirstTrajectory p)).
Proof.
  unfold generateFirstTrajectory; cbv zeta.
  split_on_calls;
    repeat split.
Qed.

Lemma generateFirstTrajectory_true p :
  fst (generateFirstTrajectory p) = true ->
  calls (snd (generateFirstTrajectory p)) = calls p ++ firstTrajectoryCalls (parameters p).
Proof.
  unfold generateFirstTrajectory, firstTrajectoryCalls; cbv zeta.
  split_on_calls;
    try discriminate.
  intros _; simpl. now rewrite <- !app_assoc.
Qed.

(** When every required parameter can be read, each local holds the value
    read, or its fallback. *)
Lemma parseParameters_true h u (prm prm' : Parameters.t) l :
  parseParameters h u prm = (true, l, prm') ->
  Locals.slowWhenBackwardFactor l = orDefault (getDouble h "slowWhenBackwardFactor") 0.4 /\
  Locals.slowWhenSidewaysFactor l = orDefault (getDouble h "slowWhenSidewaysFactor") 0.2 /\
  Locals.comHeight l = orDefault (getDouble h "comHeight") 0.70.
Proof.
  unfold parseParameters, loadParam, loadParamWithFallback, orDefault.
  cbv beta iota zeta.
  destruct (getVector2d h "referencePosition"); cbv beta iota zeta; [|discriminate].
  destruct (getVector2d h "saturationFactors"); cbv beta iota zeta; [|discriminate].
  destruct (getVector2d h "mergePointRatios"); cbv beta iota zeta; [|discriminate].
  destruct (getVector2d h "leftZMPDelta"); cbv beta iota zeta; [|discriminate].
  destruct (getVector2d h "rightZMPDelta"); cbv beta iota zeta; [|discriminate].
  destruct (getString h "leftContactFrameName"); cbv beta iota zeta; [|discriminate].
  destruct (getString h "rightContactFrameName"); cbv beta iota zeta; [|discriminate].
  intros H; inversion H; subst; clear H; simpl. auto.
Qed.

(** A successful [initialize]: the handler is there, every required
    parameter was read, the controller name is a known one, every checked
    call was accepted, and the planner is left as described. *)
Lemma initialize_true handler u uninitController p p' :
  initialize handler u uninitController p = (true, p') ->
  exists h l prm ctl,
    handler = Some h /\
    parseParameters h u (parameters p) = (true, l, prm) /\
    setUnicycleControllerFromString (Locals.unicycleControllerAsString l) uninitController
    = (true, ctl) /\
    state p' = Initialized /\
    parameters p' = prm /\
    output p' = output p /\
    input p' = input p /\
    comSystem p'
    = {| dynamics :=
           Some {| lti_A := systemMatrixA (omega (Locals.comHeight l));
                   lti_B := systemMatrixB (omega (Locals.comHeight l));
                   lti_state := v4_zero;
                   lti_controlInput := v4_zero |};
         integrator := Some (Parameters.dt prm) |} /\
    calls p'
    = calls p ++ map stmt_call (configureUnicyclePlanner l prm)
              ++ map stmt_call (configureGenerator l ctl)
              ++ firstTrajectoryCalls prm.
Proof.
  unfold initialize.
  destruct handler as [h|]; [|discriminate].
  destruct (parseParameters h u (parameters p)) as [[ok0 l] prm] eqn:EP.
  destruct (run (configureUnicyclePlanner l prm) ok0 (set_parameters prm p))
    as [ok1 p1] eqn:E1.
  destruct (if ok1
            then setUnicycleControllerFromString (Locals.unicycleControllerAsString l)
                                                 uninitController
            else (false, uninitController)) as [ok2 ctl] eqn:E2.
  destruct (run (configureGenerator l ctl) ok2 p1) as [ok3 p3] eqn:E3.
  destruct (initializeCOMSystem (omega (Locals.comHeight l)) (Parameters.dt prm) ok3)
    as [ok4 com] eqn:E4.
  destruct (if ok4 then generateFirstTrajectory (set_comSystem com p3)
            else (false, set_comSystem com p3)) as [ok5 p5] eqn:E5.
  intros H; inversion H; subst; clear H.
  destruct ok4; [|discriminate].
  unfold initializeCOMSystem in E4; destruct ok3; [|discriminate].
  cbn in E4; inversion E4; subst com; clear E4.
  pose proof (run_true (configureGenerator l ctl) ok2 p1) as R3.
  rewrite E3 in R3; destruct (R3 eq_refl) as [-> C3]; clear R3.
  destruct ok1; [|discriminate].
  pose proof (run_true (configureUnicyclePlanner l prm) ok0 (set_parameters prm p)) as R1.
  rewrite E1 in R1; destruct (R1 eq_refl) as [-> C1]; clear R1.
  pose proof (run_frame (configureUnicyclePlanner l prm) true (set_parameters prm p)) as F1.
  pose proof (run_frame (configureGenerator l ctl) true p1) as F3.
  rewrite E1 in F1; rewrite E3 in F3; cbn [fst snd] in *.
  pose proof (generateFirstTrajectory_frame (set_comSystem
     {| dynamics :=
           Some {| lti_A := systemMatrixA (omega (Locals.comHeight l));
                   lti_B := systemMatrixB (omega (Locals.comHeight l));
                   lti_state := v4_zero;
                   lti_controlInput := v4_zero |};
         integrator := Some (Parameters.dt prm) |} p3)) as F5.
  pose proof (generateFirstTrajectory_true (set_comSystem
     {| dynamics :=
           Some {| lti_A := systemMatrixA (omega (Locals.comHeight l));
                   lti_B := systemMatrixB (omega (Locals.comHeight l));
                   lti_state := v4_zero;
                   lti_controlInput := v4_zero |};
         integrator := Some (Parameters.dt prm) |} p3)) as C5.
  rewrite E5 in F5, C5; cbn [fst snd] in F5, C5.
  unfold sameButGenerator in F1, F3, F5;
    cbn [state output input parameters comSystem initTime comHeightTrajectory
         set_parameters set_comSystem set_state calls] in *.
  destruct F1 as (F1s & F1o & F1i & F1p & F1c & F1t & F1h).
  destruct F3 as (F3s & F3o & F3i & F3p & F3c & F3t & F3h).
  destruct F5 as (F5s & F5o & F5i & F5p & F5c & F5t & F5h).
  exists h, l, prm, ctl.
  repeat split; trivial; try congruence.
  rewrite (C5 eq_refl), C3, C1, F3p, F1p.
  now rewrite !app_assoc.
Qed.

(** C2.  What the code does: after a successful [initialize] the
    slow-when-sideways setting of the unicycle planner has received, once,
    the value of the local [slowWhenBackwardFactor] (the parameter
    "slowWhenBackwardFactor", 0.4 by default), the same value as the
    slow-when-backward setting; the parameter "slowWhenSidewaysFactor" is
    read and never forwarded. *)
Theorem C2_sideways_setting_receives_backward_factor
  (h : IParametersHandler) u uninitController p p' :
  initialize (Some h) u uninitController p = (true, p') ->
  exists new,
    calls p' = calls p ++ new /\
    In (SetSlowWhenBackwardFactor (orDefault (getDouble h "slowWhenBackwardFactor") 0.4)) new /\
    In (SetSlowWhenSidewaysFactor (orDefault (getDouble h "slowWhenBackwardFactor") 0.4)) new /\
    forall f, In (SetSlowWhenSidewaysFactor f) new ->
              f = orDefault (getDouble h "slowWhenBackwardFactor") 0.4.
Proof.
  intros H.
  apply initialize_true in H.
  destruct H as (h' & l & prm & ctl & Hh & HP & _ & _ & _ & _ & _ & _ & HC).
  inversion Hh; subst h'; clear Hh.
  apply parseParameters_true in HP; destruct HP as (Hb & _ & _).
  eexists; split; [exact HC|].
  rewrite <- Hb.
  split; [|split].
  - apply in_or_app; left; cbn; auto.
  - apply in_or_app; left; cbn; auto 6.
  - intros f Hin.
    cbn in Hin.
    repeat (destruct Hin as [Hin | Hin]; [first [discriminate Hin | now inversion Hin] |]).
    contradiction.
Qed.

(** ** The LIPM matrices *)

Lemma systemMatrixA_coeff (w : R) (i j : nat) :
  (i < 4)%nat -> (j < 4)%nat ->
  m4_coeff (systemMatrixA w) i j = if Nat.eqb i j then - w else 0.
Proof.
  intros Hi Hj.
  unfold m4_coeff, systemMatrixB, systemMatrixA, m4_opp, m4_scale, m4_identity, v4_opp, v4_scale.
  do 4 (destruct i as [|i]; [do 4 (destruct j as [|j]; [simpl; ring|]); lia|]); lia.
Qed.

Lemma systemMatrixB_coeff (w : R) (i j : nat) :
  (i < 4)%nat -> (j < 4)%nat ->
  m4_coeff (systemMatrixB w) i j = if Nat.eqb i j then w else 0.
Proof.
  intros Hi Hj.
  unfold m4_coeff, systemMatrixB, systemMatrixA, m4_opp, m4_scale, m4_identity, v4_opp, v4_scale.
  do 4 (destruct i as [|i]; [do 4 (destruct j as [|j]; [simpl; ring|]); lia|]); lia.
Qed.

Lemma omega_square (comHeight : R) :
  0 < comHeight -> 0 < omega comHeight /\ omega comHeight * omega comHeight * comHeight = 9.81.
Proof.
  intros Hh; unfold omega, StandardAccelerationOfGravitation.
  assert (Hpos : 0 < 9.81 / comHeight) by (apply Rdiv_lt_0_compat; lra).
  split.
  - now apply sqrt_lt_R0.
  - rewrite sqrt_sqrt by lra. field; lra.
Qed.

(** [sqrt(9.81 / 0.70)] is 3.74 to two decimal places. *)
Lemma omega_nominal : Rabs (omega 0.70 - 3.74) < 0.005.
Proof.
  unfold omega, StandardAccelerationOfGravitation.
  assert (Hlo : 3.74 <= sqrt (9.81 / 0.70)).
  { rewrite <- (sqrt_square 3.74) at 1 by lra. apply sqrt_le_1_alt; lra. }
  assert (Hhi : sqrt (9.81 / 0.70) <= 3.744).
  { rewrite <- (sqrt_square 3.744) by lra. apply sqrt_le_1_alt; lra. }
  apply Rabs_def1; lra.
Qed.

(** C4.  After a successful [initialize] with a positive CoM height [h]
    (the parameter "comHeight", 0.70 by default), the system matrices are
    [A = -w I] and [B = w I = -A] for the positive [w] with [w * w * h = 9.81],
    that is [w = sqrt (9.81 / h)]; for [h = 0.70] every coefficient of [A]
    is within 0.005 of the corresponding coefficient of [-3.74 I]. *)
Theorem C4_lipm_matrices (h : IParametersHandler) u uninitController p p' :
  initialize (Some h) u uninitController p = (true, p') ->
  0 < orDefault (getDouble h "comHeight") 0.70 ->
  let comHeight := orDefault (getDouble h "comHeight") 0.70 in
  let w := sqrt (9.81 / comHeight) in
  exists sys,
    dynamics (comSystem p') = Some sys /\
    (forall i j, (i < 4)%nat -> (j < 4)%nat ->
                 m4_coeff (lti_A sys) i j = if Nat.eqb i j then - w else 0) /\
    (forall i j, (i < 4)%nat -> (j < 4)%nat ->
                 m4_coeff (lti_B sys) i j = if Nat.eqb i j then w else 0) /\
    lti_B sys = m4_opp (lti_A sys) /\
    0 < w /\ w * w * comHeight = 9.81 /\
    (comHeight = 0.70 ->
     forall i j, (i < 4)%nat -> (j < 4)%nat ->
                 Rabs (m4_coeff (lti_A sys) i j - (if Nat.eqb i j then - 3.74 else 0)) < 0.005).
Proof.
  intros H Hpos comHeight w.
  apply initialize_true in H.
  destruct H as (h' & l & prm & ctl & Hh & HP & _ & _ & _ & _ & _ & HS & _).
  inversion Hh; subst h'; clear Hh.
  apply parseParameters_true in HP; destruct HP as (_ & _ & Hc).
  fold comHeight in Hc, Hpos.
  rewrite Hc in HS.
  assert (Hw : omega comHeight = w) by reflexivity.
  rewrite Hw in HS.
  eexists; split; [rewrite HS; reflexivity|]; cbn [lti_A lti_B].
  split; [intros; now apply systemMatrixA_coeff|].
  split; [intros; now apply systemMatrixB_coeff|].
  split; [reflexivity|].
  destruct (omega_square comHeight Hpos) as [Hw0 Hw2]; rewrite Hw in Hw0, Hw2.
  split; [assumption|]. split; [assumption|].
  intros Hnom i j Hi Hj.
  rewrite systemMatrixA_coeff by assumption.
  destruct (Nat.eqb i j).
  - pose proof omega_nominal as Hn.
    rewrite <- Hnom, Hw in Hn.
    apply Rabs_def2 in Hn.
    apply Rabs_def1; lra.
  - apply Rabs_def1; lra.
Qed.

(** ** The first and the later calls of advance *)




(** ** Alignment of the CoM and DCM trajectories *)

Lemma setRobotContactFrames_output model p :
  output (snd (setRobotContactFrames model p)) = output p.
Proof.
  unfold setRobotContactFrames; cbv zeta.
  repeat match goal with |- context [if ?b then _ else _] => destruct b end; reflexivity.
Qed.

Lemma initialize_output handler u uninitController p :
  output (snd (initialize handler u uninitController p)) = output p.
Proof.
  unfold initialize.
  destruct handler as [h|]; [|reflexivity].
  destruct (parseParameters h u (parameters p)) as [[ok0 l] prm].
  pose proof (run_frame (configureUnicyclePlanner l prm) ok0 (set_parameters prm p)) as F1.
  destruct (run (configureUnicyclePlanner l prm) ok0 (set_parameters prm p)) as [ok1 p1].
  destruct (if ok1 then _ else _) as [ok2 ctl].
  pose proof (run_frame (configureGenerator l ctl) ok2 p1) as F3.
  destruct (run (configureGenerator l ctl) ok2 p1) as [ok3 p3].
  destruct (initializeCOMSystem _ _ ok3) as [ok4 com].
  pose proof (generateFirstTrajectory_frame (set_comSystem com p3)) as F5.
  destruct F1 as (_ & F1 & _), F3 as (_ & F3 & _), F5 as (_ & F5 & _).
  cbn [fst snd] in *.
  change (output (set_parameters prm p)) with (output p) in F1.
  change (output (set_comSystem com p3)) with (output p3) in F5.
  destruct ok4; cbn [fst snd].
  - destruct (generateFirstTrajectory (set_comSystem com p3)) as [[] p5];
      cbn [fst snd] in *; cbn [output set_state]; congruence.
  - cbn [output set_comSystem]; congruence.
Qed.

Lemma cycle_aligned p p' :
  cycle p p' -> comAlignedWithDCM (output p) -> comAlignedWithDCM (output p').
Proof.
  intros [handler u uc q | model q | i q | uninit q b q' H] Ha.
  - now rewrite initialize_output.
  - now rewrite setRobotContactFrames_output.
  - unfold setInput; destruct (FSM_eqb (state q) NotInitialized); exact Ha.
  - destruct b.
    + apply advance_true in H; destruct H as (r & Hr & _).
      apply publish_returned in Hr; tauto.
    + apply advance_false in H; destruct H as (_ & Ho & _).
      now rewrite Ho.
Qed.

(** C8.  After a call of [advance] that returns true, the CoM position,
    velocity and acceleration sequences have each as many samples as the DCM
    position sequence, which is the one the generator held when the output
    was read; and once this holds it holds after any number of calls of
    [initialize], [setRobotContactFrames], [setInput] and [advance],
    successful or not. *)
Theorem C8_com_aligned_with_dcm :
  (forall uninit p p',
      advance uninit p = Returned (true, p') ->
      comAlignedWithDCM (output p') /\
      exists g,
        DCMTrajectory.position (Output.dcmTrajectory (output p')) = getDCMPosition g /\
        generator p' = snd (gen_exec AddCoMHeightTrajectoryGenerator g)) /\
  (forall p p',
      comAlignedWithDCM (output p) -> cycles p p' -> comAlignedWithDCM (output p')).
Proof.
  split.
  - intros uninit p p' H.
    apply advance_true in H; destruct H as (q & Hq & _).
    apply publish_returned in Hq.
    destruct Hq as (_ & _ & Ha & Hd & _ & _ & Hg & _).
    split; [assumption|].
    exists (generator q); split; [now rewrite Hd | assumption].
  - intros p p' Ha Hc.
    induction Hc as [p | p q r _ IH Hqr]; [assumption|].
    eapply cycle_aligned; eauto.
Qed.

(** ** The contact phase list *)

(** C9.  When the output is not valid, and also when the contact list of
    the left or of the right foot cannot be built, [getContactPhaseList]
    returns the empty contact phase list, logs one error and leaves the
    planner as it was. *)
Theorem C9_contact_phase_list_errors p :
  isOutputValid p = false \/ leftContactListOf p = None \/ rightContactListOf p = None ->
  exists message,
    getContactPhaseList p = (emptyContactPhaseList, [LogError message], p) /\
    lists (fst (fst (getContactPhaseList p))) = [].
Proof.
  unfold getContactPhaseList, leftContactListOf, rightContactListOf; cbv zeta.
  intros H.
  destruct (isOutputValid p); simpl negb; cbv iota.
  2:{ eexists; split; reflexivity. }
  destruct (getStepPhases (generator p)) as [leftStepPhases rightStepPhases].
  destruct H as [H | [H | H]]; [discriminate| |].
  - rewrite H; eexists; split; reflexivity.
  - rewrite H.
    destruct (getContactList _ _ _ _ _ "left_foot"); eexists; split; reflexivity.
Qed.

(** C10.  A call of [advance] on an initialised planner that returns, with
    either result, has stored the initial time of the current input.  After
    one that returned false the output is the one published before, and
    [getContactPhaseList] asks the contact assembler for the two contact
    lists with the initial time of that input, together with the period, the
    contact status, the steps and the frame indices that the planner held
    before the call: it returns the two lists under "left_foot" and
    "right_foot" when both are built, and the empty contact phase list with
    one error when one of them is not. *)
Theorem C10_init_time_overwritten_on_failure uninit p b p' :
  state p <> NotInitialized ->
  advance uninit p = Returned (b, p') ->
  initTime p' = Input.initTime (input p) /\
  (b = false ->
   output p' = output p /\
   getContactPhaseList p'
   = match getContactList (Input.initTime (input p)) (Parameters.dt (parameters p))
                          (leftFootInContact (Output.contactStatus (output p)))
                          (leftSteps (Output.steps (output p)))
                          (Parameters.leftContactFrameIndex (parameters p))
                          "left_foot",
           getContactList (Input.initTime (input p)) (Parameters.dt (parameters p))
                          (rightFootInContact (Output.contactStatus (output p)))
                          (rightSteps (Output.steps (output p)))
                          (Parameters.rightContactFrameIndex (parameters p))
                          "right_foot" with
     | Some leftContactList, Some rightContactList =>
         ({| lists := [("left_foot"%string, leftContactList);
                       ("right_foot"%string, rightContactList)] |}, [], p')
     | None, _ =>
         (emptyContactPhaseList,
          [LogError "[UnicycleTrajectoryPlanner::getContactPhaseList] Error while getting the left contact list. Returning an empty Contact Phase List."],
          p')
     | Some _, None =>
         (emptyContactPhaseList,
          [LogError "[UnicycleTrajectoryPlanner::getContactPhaseList] Error while getting the right contact list. Returning an empty Contact Phase List."],
          p')
     end).
Proof.
  intros Hs H.
  destruct b.
  - split; [|discriminate].
    apply advance_true in H; destruct H as (q & Hq & _ & _ & Ht & _).
    apply publish_returned in Hq.
    destruct Hq as (_ & _ & _ & _ & _ & _ & _ & _ & _ & _ & Ht').
    congruence.
  - apply advance_false in H.
    destruct H as (Hst & Ho & _ & Hp & [[Hn _] | (Hr & _ & Ht & _)]); [contradiction|].
    split; [assumption|]; intros _.
    split; [assumption|].
    unfold getContactPhaseList, isOutputValid; cbv zeta.
    rewrite Hst, Hr, Ht, Ho, Hp; cbn [FSM_eqb negb].
    destruct (getStepPhases (generator p')) as [leftStepPhases rightStepPhases].
    destruct (getContactList _ _ _ _ _ "left_foot") as [l|]; [|reflexivity].
    destruct (getContactList _ _ _ _ _ "right_foot") as [r|]; reflexivity.
Qed.

(** ** The desired point *)

(** C1.  What the code does: component 0 of the relative desired point is
    the y command, [plannerInput(1)], and component 1 is never assigned (it
    keeps what the default-constructed vector held); the x command does not
    reach the point.  For the command (1, 2, 0) the point is (2, _), not
    (1, 2). *)
Theorem C1_relative_point_drops_x_command :
  (forall uninit (plannerInput : R * R * R),
      fst (desiredPointInRelativeFrame uninit plannerInput) = coeff3 plannerInput 1 /\
      snd (desiredPointInRelativeFrame uninit plannerInput) = snd uninit) /\
  (forall uninit x x' y yaw,
      desiredPointInRelativeFrame uninit (x, y, yaw)
      = desiredPointInRelativeFrame uninit (x', y, yaw)) /\
  fst (desiredPointInRelativeFrame (0, 0) (1, 2, 0)) <> coeff3 (1, 2, 0) 0 /\
  snd (desiredPointInRelativeFrame (0, 0) (1, 2, 0)) <> coeff3 (1, 2, 0) 1.
Proof.
  unfold desiredPointInRelativeFrame; simpl.
  repeat split; lra.
Qed.

(** * Further properties of the planner *)

(** ** Reading the parameters *)

Ltac destruct_required h :=
  destruct (getVector2d h "referencePosition"); cbv beta iota zeta;
  [destruct (getVector2d h "saturationFactors"); cbv beta iota zeta;
   [destruct (getVector2d h "mergePointRatios"); cbv beta iota zeta;
    [destruct (getVector2d h "leftZMPDelta"); cbv beta iota zeta;
     [destruct (getVector2d h "rightZMPDelta"); cbv beta iota zeta;
      [destruct (getString h "leftContactFrameName"); cbv beta iota zeta;
       [destruct (getString h "rightContactFrameName"); cbv beta iota zeta
       | ] | ] | ] | ] | ] | ].

(** The parameters are all read exactly when the seven required ones are
    there, and then every local and every stored parameter is the value
    read or its fallback. *)
Lemma parseParameters_resolved h u (prm : Parameters.t) :
  fst (fst (parseParameters h u prm)) = requiredPresent h /\
  (requiredPresent h = true ->
   exists ref sat mpr lz rz ln rn,
     getVector2d h "referencePosition" = Some ref /\
     getVector2d h "saturationFactors" = Some sat /\
     getVector2d h "mergePointRatios" = Some mpr /\
     getVector2d h "leftZMPDelta" = Some lz /\
     getVector2d h "rightZMPDelta" = Some rz /\
     getString h "leftContactFrameName" = Some ln /\
     getString h "rightContactFrameName" = Some rn /\
     parseParameters h u prm
     = (true, resolvedLocals h sat mpr lz rz, resolvedParameters h prm ref ln rn)).
Proof.
  unfold parseParameters, requiredPresent, loadParam, loadParamWithFallback.
  cbv beta iota zeta.
  destruct_required h; cbn [is_some andb fst]; (split; [reflexivity|]);
    try discriminate.
  intros _.
  do 7 eexists; repeat split.
Qed.

(** ** initialize: what a failure leaves, and what success requires *)

Lemma run_false_calls script :
  forall p, calls (snd (run script false p)) = calls p ++ uncheckedCalls script.
Proof.
  unfold uncheckedCalls.
  induction script as [|[c|c] script IH]; cbn [run filter isUnchecked map]; intros p.
  - now rewrite app_nil_r.
  - apply IH.
  - rewrite IH; unfold call_, call; cbn [stmt_call snd calls]. now rewrite <- app_assoc.
Qed.

(** [initialize] changes the state only when it succeeds, and never the
    output, the input, the stored initial time or the stored height
    trajectory. *)
Lemma initialize_frame handler u uninitController p :
  output (snd (initialize handler u uninitController p)) = output p /\
  input (snd (initialize handler u uninitController p)) = input p /\
  initTime (snd (initialize handler u uninitController p)) = initTime p /\
  state (snd (initialize handler u uninitController p))
  = if fst (initialize handler u uninitController p) then Initialized else state p.
Proof.
  unfold initialize.
  destruct handler as [h|]; [|auto].
  destruct (parseParameters h u (parameters p)) as [[ok0 l] prm].
  pose proof (run_frame (configureUnicyclePlanner l prm) ok0 (set_parameters prm p)) as F1.
  destruct (run (configureUnicyclePlanner l prm) ok0 (set_parameters prm p)) as [ok1 p1].
  destruct (if ok1 then _ else _) as [ok2 ctl].
  pose proof (run_frame (configureGenerator l ctl) ok2 p1) as F3.
  destruct (run (configureGenerator l ctl) ok2 p1) as [ok3 p3].
  destruct (initializeCOMSystem _ _ ok3) as [ok4 com].
  pose proof (generateFirstTrajectory_frame (set_comSystem com p3)) as F5.
  unfold sameButGenerator in F1, F3, F5.
  cbn [fst snd state output input parameters comSystem initTime comHeightTrajectory
       set_parameters set_comSystem] in F1, F3, F5.
  destruct F1 as (F1s & F1o & F1i & _ & _ & F1t & _).
  destruct F3 as (F3s & F3o & F3i & _ & _ & F3t & _).
  destruct F5 as (F5s & F5o & F5i & _ & _ & F5t & _).
  destruct ok4; cbn [fst snd].
  - destruct (generateFirstTrajectory (set_comSystem com p3)) as [[] p5];
      cbn [fst snd state output input initTime set_state] in *;
      repeat split; congruence.
  - cbn [state output input initTime set_comSystem]; repeat split; congruence.
Qed.

(** X1.  A call of [initialize] that returns false leaves the state of the
    planner as it was (it does not go back to [NotInitialized]), and leaves
    the output and the input untouched. *)
Theorem X1_failed_initialize_keeps_state handler u uninitController p :
  fst (initialize handler u uninitController p) = false ->
  state (snd (initialize handler u uninitController p)) = state p /\
  output (snd (initialize handler u uninitController p)) = output p /\
  input (snd (initialize handler u uninitController p)) = input p.
Proof.
  intros H.
  destruct (initialize_frame handler u uninitController p) as (Ho & Hi & _ & Hs).
  rewrite H in Hs; auto.
Qed.

(** X2.  [initialize] succeeds only with a handler that holds the seven
    required parameters and a control type that is "personFollowing" or
    "direct" ("direct" when none is configured); the controller sent to the
    unicycle planner is then the one named. *)
Theorem X2_initialize_requirements handler u uninitController p p' :
  initialize handler u uninitController p = (true, p') ->
  exists h,
    handler = Some h /\
    requiredPresent h = true /\
    controlTypeValid h = true /\
    exists before after,
      calls p'
      = calls p ++ before
          ++ [SetUnicycleController
                (if String.eqb (orDefault (getString h "controlType") "direct"%string)
                               "personFollowing"
                 then PERSON_FOLLOWING else DIRECT)]
          ++ after.
Proof.
  intros H.
  apply initialize_true in H.
  destruct H as (h & l & prm & ctl & Hh & HP & HC & _ & _ & _ & _ & _ & Hcalls).
  exists h; split; [assumption|].
  destruct (parseParameters_resolved h u (parameters p)) as [Hok Hres].
  rewrite HP in Hok; cbn [fst] in Hok; symmetry in Hok.
  split; [assumption|].
  destruct (Hres Hok) as (ref & sat & mpr & lz & rz & ln & rn & _ & _ & _ & _ & _ & _ & _ & E).
  rewrite HP in E; injection E as Hl _.
  rewrite Hl in HC.
  cbn [resolvedLocals Locals.unicycleControllerAsString] in HC.
  unfold setUnicycleControllerFromString in HC.
  unfold controlTypeValid; cbv zeta.
  assert (Hcalls' :
            calls p' = calls p ++ map stmt_call (configureUnicyclePlanner l prm)
                       ++ [SetUnicycleController ctl]
                       ++ (map stmt_call (tl (configureGenerator l ctl))
                           ++ firstTrajectoryCalls prm))
    by (rewrite Hcalls; reflexivity).
  destruct (String.eqb _ "personFollowing") eqn:E1.
  - split; [reflexivity|].
    inversion HC; subst ctl. eauto.
  - destruct (String.eqb _ "direct") eqn:E2; [|discriminate].
    split; [reflexivity|].
    inversion HC; subst ctl. eauto.
Qed.

(** X3.  When a required parameter cannot be read, [initialize] returns
    false and makes none of the checked calls and no cold-start plan: the
    generator receives exactly the eleven calls whose result is not read,
    with whatever the locals then hold. *)
Theorem X3_missing_parameter_skips_checked_calls (h : IParametersHandler) u uninitController p :
  requiredPresent h = false ->
  fst (initialize (Some h) u uninitController p) = false /\
  exists leftYaw rightYaw terminalStep startWithLeft startWithSameFoot isPauseActive
         leftZMPDelta rightZMPDelta w,
    calls (snd (initialize (Some h) u uninitController p))
    = calls p ++
      [ SetLeftFootYawOffsetInRadians leftYaw;
        SetRightFootYawOffsetInRadians rightYaw;
        AddTerminalStep terminalStep;
        StartWithLeft startWithLeft;
        ResetStartingFootIfStill startWithSameFoot;
        SetPauseActive isPauseActive;
        AddCoMHeightTrajectoryGenerator;
        AddDCMTrajectoryGenerator;
        SetFootOriginOffset leftZMPDelta rightZMPDelta;
        SetOmega w;
        SetFirstDCMTrajectoryMode FifthOrderPoly ].
Proof.
  intros Hreq.
  unfold initialize.
  destruct (parseParameters_resolved h u (parameters p)) as [Hok _].
  destruct (parseParameters h u (parameters p)) as [[ok0 l] prm].
  cbn [fst] in Hok; rewrite Hreq in Hok; subst ok0.
  pose proof (run_false (configureUnicyclePlanner l prm) (set_parameters prm p)) as R1.
  pose proof (run_false_calls (configureUnicyclePlanner l prm) (set_parameters prm p)) as C1.
  destruct (run (configureUnicyclePlanner l prm) false (set_parameters prm p)) as [ok1 p1].
  cbn [fst snd] in R1, C1; subst ok1.
  pose proof (run_false (configureGenerator l uninitController) p1) as R3.
  pose proof (run_false_calls (configureGenerator l uninitController) p1) as C3.
  destruct (run (configureGenerator l uninitController) false p1) as [ok3 p3].
  cbn [fst snd] in R3, C3; subst ok3.
  cbn [initializeCOMSystem fst snd calls set_comSystem].
  split; [reflexivity|].
  rewrite C3, C1.
  cbn [calls set_parameters].
  unfold uncheckedCalls;
    cbn [configureUnicyclePlanner configureGenerator filter isUnchecked map stmt_call].
  rewrite <- app_assoc; cbn [app].
  do 9 eexists; reflexivity.
Qed.

(** X4.  After a successful [initialize] the stored parameters are the
    values read or their fallbacks: the period and the horizon as the cast
    of lines 275-278 turns the doubles read (0.002 and 20.0 by default) into
    nanoseconds, the nominal width (0.20), the
    two yaw offsets converted from degrees to radians (0 by default), the
    reference position and the two frame names; the frame indices are not
    touched, and the yaw offsets sent to the unicycle planner are the
    stored ones. *)
Theorem X4_parameters_after_initialize (h : IParametersHandler) u uninitController p p' :
  initialize (Some h) u uninitController p = (true, p') ->
  exists ref ln rn,
    getVector2d h "referencePosition" = Some ref /\
    getString h "leftContactFrameName" = Some ln /\
    getString h "rightContactFrameName" = Some rn /\
    parameters p' = resolvedParameters h (parameters p) ref ln rn /\
    In (SetLeftFootYawOffsetInRadians
          (orDefault (getDouble h "leftYawDeltaInDeg") 0.0 * PI / 180)) (calls p') /\
    In (SetRightFootYawOffsetInRadians
          (orDefault (getDouble h "rightYawDeltaInDeg") 0.0 * PI / 180)) (calls p').
Proof.
  intros H.
  apply initialize_true in H.
  destruct H as (h' & l & prm & ctl & Hh & HP & _ & _ & Hprm & _ & _ & _ & Hcalls).
  inversion Hh; subst h'; clear Hh.
  destruct (parseParameters_resolved h u (parameters p)) as [Hok Hres].
  rewrite HP in Hok; cbn [fst] in Hok; symmetry in Hok.
  destruct (Hres Hok) as (ref & sat & mpr & lz & rz & ln & rn & Href & _ & _ & _ & _ & Hln & Hrn & E).
  rewrite HP in E; injection E as Hl Hq.
  rewrite Hq in Hprm, Hcalls.
  exists ref, ln, rn.
  repeat split; trivial; rewrite Hcalls;
    apply in_or_app; right; apply in_or_app; left;
    cbn [configureUnicyclePlanner map stmt_call resolvedParameters In
         Parameters.leftYawDeltaInRad Parameters.rightYawDeltaInRad];
    unfold deg2rad; repeat (first [left; reflexivity | right]).
Qed.

(** ** setRobotContactFrames *)

(** X5.  [setRobotContactFrames] returns true exactly when the planner is
    initialised, the model can be loaded and both configured frame names
    have a valid index; it then stores the two indices and changes nothing
    else.  Whenever it returns false the planner is left in
    [NotInitialized]; in no case does it touch the output, the input or the
    generator. *)
Theorem X5_contact_frames_resolved (model : Model) p :
  let leftIndex := getFrameIndex model (Parameters.leftContactFrameName (parameters p)) in
  let rightIndex := getFrameIndex model (Parameters.rightContactFrameName (parameters p)) in
  (fst (setRobotContactFrames model p) = true <->
   state p <> NotInitialized /\ loadRobotModel model = true /\
   leftIndex <> FRAME_INVALID_INDEX /\ rightIndex <> FRAME_INVALID_INDEX) /\
  (fst (setRobotContactFrames model p) = true ->
   snd (setRobotContactFrames model p)
   = set_parameters
       (set_rightContactFrameIndex rightIndex
          (set_leftContactFrameIndex leftIndex (parameters p))) p) /\
  (fst (setRobotContactFrames model p) = false ->
   state (snd (setRobotContactFrames model p)) = NotInitialized) /\
  output (snd (setRobotContactFrames model p)) = output p /\
  input (snd (setRobotContactFrames model p)) = input p /\
  generator (snd (setRobotContactFrames model p)) = generator p /\
  calls (snd (setRobotContactFrames model p)) = calls p.
Proof.
  cbv zeta.
  split; [|split; [|split; [apply setRobotContactFrames_false|]]].
  - unfold setRobotContactFrames; cbv zeta.
    destruct (FSM_eqb (state p) NotInitialized) eqn:Es.
    { apply FSM_eqb_eq in Es. split; [discriminate | tauto]. }
    apply FSM_eqb_neq in Es.
    destruct (loadRobotModel model); cbn [negb];
      [|split; [discriminate | intros (_ & H & _); discriminate]].
    cbn [parameters set_parameters Parameters.leftContactFrameIndex
         Parameters.rightContactFrameIndex Parameters.rightContactFrameName
         Parameters.leftContactFrameName set_leftContactFrameIndex
         set_rightContactFrameIndex].
    destruct (Z.eqb_spec (getFrameIndex model (Parameters.leftContactFrameName (parameters p)))
                         FRAME_INVALID_INDEX) as [El | El];
      [split; [discriminate | tauto]|].
    destruct (Z.eqb_spec (getFrameIndex model (Parameters.rightContactFrameName (parameters p)))
                         FRAME_INVALID_INDEX) as [Er | Er];
      [split; [discriminate | tauto]|].
    cbn [fst]; tauto.
  - unfold setRobotContactFrames; cbv zeta.
    destruct (FSM_eqb (state p) NotInitialized); [discriminate|].
    destruct (negb (loadRobotModel model)); [discriminate|].
    cbn [parameters set_parameters Parameters.leftContactFrameIndex
         Parameters.rightContactFrameIndex Parameters.rightContactFrameName
         Parameters.leftContactFrameName set_leftContactFrameIndex
         set_rightContactFrameIndex].
    destruct (Z.eqb _ FRAME_INVALID_INDEX); [discriminate|].
    destruct (Z.eqb _ FRAME_INVALID_INDEX); [discriminate|].
    reflexivity.
  - unfold setRobotContactFrames; cbv zeta.
    repeat match goal with |- context [if ?b then _ else _] => destruct b end;
      repeat split.
Qed.

(** ** The unicycle pose *)

(** X6.  The unicycle frame computed from the measured stance foot is a
    rigid frame: its rotation matrix is orthonormal with determinant 1, its
    origin lies at half the nominal width from the measured foot position,
    and the waypoint sent to the generator is as far from that origin as
    the relative point (reference offset plus command) is from zero. *)
Theorem X6_unicycle_pose_is_rigid uninit p :
  let rot := fst (unicyclePose p) in
  let origin := snd (unicyclePose p) in
  let foot : Vector2d := (SE3d.x (Input.measuredTransform (input p)),
                          SE3d.y (Input.measuredTransform (input p))) in
  let halfWidth := Parameters.nominalWidth (parameters p) / 2 in
  m00 rot * m00 rot + m10 rot * m10 rot = 1 /\
  m01 rot * m01 rot + m11 rot * m11 rot = 1 /\
  m00 rot * m01 rot + m10 rot * m11 rot = 0 /\
  m00 rot * m11 rot - m01 rot * m10 rot = 1 /\
  dist2 origin foot = halfWidth * halfWidth /\
  dist2 (desiredPointInAbsoluteFrame uninit p) origin
  = dist2 (v2_add (Parameters.referencePointDistance (parameters p))
                  (desiredPointInRelativeFrame uninit (Input.plannerInput (input p))))
          (0, 0).
Proof.
  unfold desiredPointInAbsoluteFrame, unicyclePose; cbv zeta.
  set (rel := v2_add _ (desiredPointInRelativeFrame _ _)).
  destruct (negb (Input.isLeftLastSwinging (input p)));
    cbv beta iota;
    match goal with
    | |- context [sin ?a] =>
        pose proof (sin2_cos2 a) as Hsc; unfold Rsqr in Hsc;
        set (s := sin a) in *; set (c := cos a) in *
    end;
    unfold dist2, v2_add, m2_mulv; cbn [fst snd m00 m01 m10 m11];
    repeat split; try lra; nra.
Qed.

(** ** The cold-start plan *)

Lemma call_fst c p : fst (call c p) = fst (gen_exec c (generator p)).
Proof. reflexivity. Qed.

Lemma call_generator c p : generator (snd (call c p)) = snd (gen_exec c (generator p)).
Proof. reflexivity. Qed.

Lemma call_calls c p : calls (snd (call c p)) = calls p ++ [c].
Proof. reflexivity. Qed.

Lemma call_parameters c p : parameters (snd (call c p)) = parameters p.
Proof. reflexivity. Qed.

Lemma call__generator c p : generator (call_ c p) = snd (gen_exec c (generator p)).
Proof. reflexivity. Qed.

Lemma call__calls c p : calls (call_ c p) = calls p ++ [c].
Proof. reflexivity. Qed.

Lemma call__parameters c p : parameters (call_ c p) = parameters p.
Proof. reflexivity. Qed.

(** X9.  [generateFirstTrajectory] always clears the desired trajectory,
    zeroes the direct control, clears both foot prints and offers the
    reference position as the point at time 0; it goes on to the point at
    the end of the horizon and then to the generation only while the
    previous call is accepted.  It returns true exactly when the three
    checked calls are accepted, and when it returns false the last call it
    made is the one that was refused. *)
Theorem X9_first_trajectory_stops_at_refusal p :
  let plan := firstTrajectoryCalls (parameters p) in
  exists k,
    (5 <= k <= 7)%nat /\
    calls (snd (generateFirstTrajectory p)) = calls p ++ firstn k plan /\
    generator (snd (generateFirstTrajectory p)) = gen_after (firstn k plan) (generator p) /\
    (fst (generateFirstTrajectory p) = true <->
     k = 7%nat /\
     forall j, (4 <= j < 7)%nat ->
               accepts (firstn j plan) (nth j plan ClearLeftSteps) (generator p) = true) /\
    (fst (generateFirstTrajectory p) = false ->
     accepts (firstn (k - 1) plan) (nth (k - 1) plan ClearLeftSteps) (generator p) = false).
Proof.
  cbv zeta.
  unfold generateFirstTrajectory, firstTrajectoryCalls, accepts, gen_after; cbv zeta.
  rewrite !call__parameters.
  set (ref := (fst (Parameters.referencePointDistance (parameters p)),
               snd (Parameters.referencePointDistance (parameters p)))).
  set (p4 := call_ ClearRightSteps _).
  assert (G4 : generator p4
               = snd (gen_exec ClearRightSteps
                   (snd (gen_exec ClearLeftSteps
                      (snd (gen_exec (SetDesiredDirectControl 0.0 0.0 0.0)
                         (snd (gen_exec ClearPersonFollowingDesiredTrajectory
                                        (generator p)))))))))
    by reflexivity.
  assert (C4 : calls p4
               = calls p ++ [ClearPersonFollowingDesiredTrajectory;
                             SetDesiredDirectControl 0.0 0.0 0.0;
                             ClearLeftSteps; ClearRightSteps]).
  { subst p4; rewrite !call__calls, <- !app_assoc; reflexivity. }
  clearbody p4.
  change (call ?c ?q) with (fst (call c q), snd (call c q)); cbv iota beta.
  destruct (fst (call (AddPersonFollowingDesiredTrajectoryPoint 0 ref) p4)) eqn:E5;
    cbv beta iota delta [negb].
  2:{ exists 5%nat; cbn [firstn nth Nat.sub fold_left fst snd].
      rewrite call_calls, call_generator, C4, G4, <- app_assoc.
      rewrite call_fst, G4 in E5.
      repeat split; try lia; try discriminate; try (intros _; exact E5).
      all: try (intros [H _]; discriminate). }
  set (p5 := snd (call (AddPersonFollowingDesiredTrajectoryPoint 0 ref) p4)) in *.
  assert (G5 : generator p5
               = snd (gen_exec (AddPersonFollowingDesiredTrajectoryPoint 0 ref) (generator p4)))
    by reflexivity.
  assert (C5 : calls p5 = calls p4 ++ [AddPersonFollowingDesiredTrajectoryPoint 0 ref])
    by reflexivity.
  clearbody p5.
  change (call ?c ?q) with (fst (call c q), snd (call c q)); cbv iota beta.
  destruct (fst (call (AddPersonFollowingDesiredTrajectoryPoint _ ref) p5)) eqn:E6;
    cbv beta iota delta [negb].
  2:{ exists 6%nat; cbn [firstn nth Nat.sub fold_left fst snd].
      rewrite call_calls, call_generator, C5, G5, C4, G4, <- !app_assoc.
      rewrite call_fst, G5, G4 in E6.
      repeat split; try lia; try discriminate; try (intros _; exact E6).
      all: try (intros [H _]; discriminate). }
  set (p6 := snd (call (AddPersonFollowingDesiredTrajectoryPoint _ ref) p5)) in *.
  assert (G6 : generator p6
               = snd (gen_exec (AddPersonFollowingDesiredTrajectoryPoint
                                  (0 + to_seconds (Parameters.plannerHorizon (parameters p)))
                                  ref) (generator p5)))
    by reflexivity.
  assert (C6 : calls p6
               = calls p5 ++ [AddPersonFollowingDesiredTrajectoryPoint
                                (0 + to_seconds (Parameters.plannerHorizon (parameters p)))
                                ref])
    by reflexivity.
  clearbody p6.
  change (call ?c ?q) with (fst (call c q), snd (call c q)); cbv iota beta.
  rewrite call_fst, G4 in E5. rewrite call_fst, G5, G4 in E6.
  destruct (fst (call (Generate _ _ _) p6)) eqn:E7; cbv beta iota delta [negb];
    rewrite call_fst, G6, G5, G4 in E7;
    exists 7%nat; cbn [firstn nth Nat.sub fold_left fst snd];
    rewrite call_calls, call_generator, C6, G6, C5, G5, C4, G4, <- !app_assoc;
    cbn [app].
  - repeat split; try lia; try discriminate.
    all: try (intros j Hj;
              assert (Hc : j = 4%nat \/ j = 5%nat \/ j = 6%nat) by lia;
              destruct Hc as [-> | [-> | ->]]; cbn [firstn nth fold_left]; assumption).
  - repeat split; try lia; try discriminate; try (intros _; exact E7).
    all: try (intros [_ H]; specialize (H 6%nat ltac:(lia));
              cbn [firstn nth fold_left] in H; congruence).
Qed.

(** ** The contact phase list when it can be built *)

(** X10.  [getContactPhaseList] returns a contact phase list with a contact
    list exactly when the output is valid and both contact lists can be
    built; the list then maps "left_foot" to the left contact list and
    "right_foot" to the right one, nothing is logged, and the planner is not
    changed. *)
Theorem X10_contact_phase_list_built p :
  (lists (fst (fst (getContactPhaseList p))) <> [] <->
   isOutputValid p = true /\ leftContactListOf p <> None /\ rightContactListOf p <> None) /\
  (forall l r,
      isOutputValid p = true ->
      leftContactListOf p = Some l -> rightContactListOf p = Some r ->
      getContactPhaseList p
      = ({| lists := [("left_foot"%string, l); ("right_foot"%string, r)] |}, [], p)).
Proof.
  unfold getContactPhaseList, leftContactListOf, rightContactListOf; cbv zeta.
  destruct (isOutputValid p); cbn [negb].
  2:{ split; [|discriminate].
      cbn; split; [congruence | intros (H & _); discriminate]. }
  destruct (getStepPhases (generator p)) as [leftStepPhases rightStepPhases].
  destruct (getContactList _ _ _ _ _ "left_foot") as [l|].
  2:{ split; [|discriminate]. cbn; split; [congruence | tauto]. }
  destruct (getContactList _ _ _ _ _ "right_foot") as [r|].
  2:{ split; [|discriminate]. cbn; split; [congruence | tauto]. }
  split.
  - cbn; split; [intros _; repeat split; discriminate | discriminate].
  - intros l' r' _ Hl Hr; inversion Hl; inversion Hr; subst. reflexivity.
Qed.

(** ** The CoM trajectory *)

Lemma integrateCoM_matrices dT velocity positions :
  forall i time sys ps vs accs sys',
    integrateCoM dT velocity positions i time sys = Some (ps, vs, accs, sys') ->
    lti_A sys' = lti_A sys /\ lti_B sys' = lti_B sys.
Proof.
  induction positions as [|x rest IH]; cbn [integrateCoM]; intros i time sys ps vs accs sys' H.
  - inversion H; subst; auto.
  - destruct (nth_error velocity i) as [v|]; [|discriminate].
    cbv zeta in H.
    destruct (integrateCoM dT velocity rest (S i) _ _) as [[[[ps' vs'] accs'] s']|] eqn:E;
      [|discriminate].
    inversion H; subst; clear H.
    apply IH in E; exact E.
Qed.

(** The first sample is computed from the state the loop starts in. *)
Lemma integrateCoM_first dT velocity d rest :
  forall time sys ps vs accs sys',
    integrateCoM dT velocity (d :: rest) 0 time sys = Some (ps, vs, accs, sys') ->
    exists v,
      nth_error velocity 0 = Some v /\
      hd_error ps = Some (v4_head2 (lti_state sys)) /\
      hd_error vs = Some (v4_head2 (lti_dynamics (snd (setControlInput (v4_of_pair d v) sys)))) /\
      hd_error accs
      = Some (v4_tail2 (lti_dynamics (snd (setControlInput (v4_of_pair d v) sys)))).
Proof.
  cbn [integrateCoM]; intros time sys ps vs accs sys' H.
  destruct (nth_error velocity 0) as [v|]; [|discriminate].
  cbv zeta in H.
  destruct (integrateCoM dT velocity rest 1 _ _) as [[[[ps' vs'] accs'] s']|]; [|discriminate].
  inversion H; subst; clear H.
  exists v; repeat split.
Qed.

(** With the matrices of [initialize], every velocity sample is [w] times
    the difference between the DCM position and the CoM position of the
    same index. *)
Lemma integrateCoM_lipm (w : R) dT velocity positions :
  forall i time sys ps vs accs sys',
    lti_A sys = systemMatrixA w -> lti_B sys = systemMatrixB w ->
    integrateCoM dT velocity positions i time sys = Some (ps, vs, accs, sys') ->
    forall k x d v,
      nth_error ps k = Some x -> nth_error positions k = Some d ->
      nth_error vs k = Some v ->
      fst v = w * (fst d - fst x) /\ snd v = w * (snd d - snd x).
Proof.
  induction positions as [|d0 rest IH]; cbn [integrateCoM];
    intros i time sys ps vs accs sys' HA HB H k x d v Hx Hd Hv.
  - destruct k; discriminate.
  - destruct (nth_error velocity i) as [v0|]; [|discriminate].
    cbv zeta in H.
    destruct (integrateCoM dT velocity rest (S i) _ _) as [[[[ps' vs'] accs'] s']|] eqn:E;
      [|discriminate].
    inversion H; subst; clear H.
    destruct k as [|k].
    + cbn [nth_error] in Hx, Hd, Hv.
      inversion Hx; inversion Hd; inversion Hv; subst; clear Hx Hd Hv.
      unfold lti_dynamics, setControlInput; cbn [snd lti_A lti_B lti_state lti_controlInput].
      rewrite HA, HB.
      unfold systemMatrixB, systemMatrixA, m4_opp, m4_scale, m4_identity, v4_opp, v4_scale,
        m4_mulv, v4_dot, v4_add, v4_head2, v4_of_pair.
      cbn [fst snd c0 c1 c2 c3 r0 r1 r2 r3].
      split; ring.
    + cbn [nth_error] in Hx, Hd, Hv.
      eapply IH; [| | exact E | exact Hx | exact Hd | exact Hv]; cbn; assumption.
Qed.

Lemma stackHeight_spec heights planarSamples :
  forall i l,
    stackHeight heights planarSamples i = Some l ->
    map planar l = planarSamples /\
    map height l = firstn (List.length planarSamples) (skipn i heights).
Proof.
  induction planarSamples as [|xy rest IH]; cbn [stackHeight]; intros i l H.
  - inversion H; auto.
  - destruct (nth_error heights i) as [z|] eqn:Ez; [|discriminate].
    destruct (stackHeight heights rest (S i)) as [l'|] eqn:E; [|discriminate].
    inversion H; subst; clear H.
    apply IH in E; destruct E as [Ep Eh].
    cbn [map List.length]; unfold planar at 1, height at 1; cbn [fst snd].
    rewrite Ep, Eh.
    split; [now destruct xy|].
    clear - Ez.
    revert heights Ez; induction i as [|i IHi]; intros [|h0 hs] Ez; try discriminate.
    + cbn in Ez; inversion Ez; reflexivity.
    + cbn [nth_error] in Ez. cbn [skipn]. now apply IHi.
Qed.

(** What the end of [advance] leaves in the planner besides what
    [publish_returned] states. *)
Lemma publish_com p b p' :
  publish p = Returned (b, p') ->
  exists sys ps vs accs sys',
    dynamics (comSystem p) = Some sys /\
    integrateCoM (Parameters.dt (parameters p)) (getDCMVelocity (generator p))
                 (getDCMPosition (generator p)) 0 (Input.initTime (input p))
                 (snd (setState
                         (v4_of_pair (initialPlanarPosition (Input.comInitialState (input p)))
                                     (initialPlanarVelocity (Input.comInitialState (input p))))
                         sys))
    = Some (ps, vs, accs, sys') /\
    dynamics (comSystem p') = Some sys' /\
    integrator (comSystem p') = integrator (comSystem p) /\
    comHeightTrajectory p'
    = COMHeightTrajectory.mk (getCoMHeightTrajectory (generator p'))
                             (getCoMHeightVelocity (generator p'))
                             (getCoMHeightAccelerationProfile (generator p')) /\
    stackHeight (getCoMHeightTrajectory (generator p')) ps 0
    = Some (COMTrajectory.position (Output.comTrajectory (output p'))) /\
    stackHeight (getCoMHeightVelocity (generator p')) vs 0
    = Some (COMTrajectory.velocity (Output.comTrajectory (output p'))) /\
    stackHeight (getCoMHeightAccelerationProfile (generator p')) accs 0
    = Some (COMTrajectory.acceleration (Output.comTrajectory (output p'))) /\
    Output.mergePoints (output p') = getMergePoints (generator p').
Proof.
  unfold publish; cbv zeta.
  destruct (dynamics (comSystem p)) as [sys|]; [|discriminate].
  destruct (integrator (comSystem p)) as [step|]; [|discriminate].
  cbn [DCMTrajectory.position DCMTrajectory.velocity].
  destruct (integrateCoM _ _ _ _ _ _) as [[[[ps vs] accs] sys']|] eqn:E; [|discriminate].
  cbn [COMHeightTrajectory.position COMHeightTrajectory.velocity
       COMHeightTrajectory.acceleration].
  destruct (stackHeight _ ps 0) as [position|] eqn:E1; [|discriminate].
  destruct (stackHeight _ vs 0) as [velocity|] eqn:E2; [|discriminate].
  destruct (stackHeight _ accs 0) as [acceleration|] eqn:E3; [|discriminate].
  intros H; inversion H; subst; clear H.
  exists sys, ps, vs, accs, sys'.
  repeat split; assumption.
Qed.

(** ** advance, once more *)

Lemma replanCalls_accepted uninit p :
  ~ Rejects uninit p ->
  replanCalls uninit p = firstn 6 (replanningAdvanceCalls uninit p).
Proof.
  intros Hn; unfold replanCalls, replanningAdvanceCalls; cbv zeta.
  destruct (accepts _ (waypointCall uninit p) (generator p)) eqn:E1; cbn [negb].
  2:{ destruct Hn; apply RejectsWaypoint; exact E1. }
  cbn [app].
  destruct (accepts _ (dcmStateCall p) (generator p)) eqn:E2; cbn [negb].
  2:{ destruct Hn; apply RejectsDCMInitialState; [exact E1 | exact E2]. }
  reflexivity.
Qed.

(** A call of [advance] that returns true has read the output from a
    planner that differs from the one it was called on by the generator,
    the calls and the stored initial time only. *)
Lemma advance_publish uninit p p' :
  advance uninit p = Returned (true, p') ->
  exists q,
    publish q = Returned (true, p') /\
    input q = input p /\ parameters q = parameters p /\ comSystem q = comSystem p /\
    calls q = calls p ++ (if FSM_eqb (state p) Running
                          then firstn 6 (replanningAdvanceCalls uninit p)
                          else [AddDCMTrajectoryGenerator]) /\
    generator q = gen_after (if FSM_eqb (state p) Running
                             then firstn 6 (replanningAdvanceCalls uninit p)
                             else [AddDCMTrajectoryGenerator]) (generator p).
Proof.
  intros H.
  destruct (state p) eqn:Hs.
  - unfold advance in H; rewrite Hs in H; discriminate.
  - rewrite (advance_initialized _ _ Hs) in H.
    eexists; split; [exact H|]. repeat split.
  - destruct (advance_running uninit p Hs) as [[HR E] | [HR E]]; rewrite E in H.
    + discriminate.
    + eexists; split; [exact H|].
      cbn [FSM_eqb input parameters comSystem calls generator].
      rewrite <- (replanCalls_accepted _ _ HR). repeat split.
Qed.

(** X7.  A call of [advance] in the state [Running] that returns true has
    made exactly seven calls on the generator, in this order: get the DCM
    generator, clear the desired trajectory, add the waypoint at the end of
    the horizon, set the direct control to the three components of the
    command, set the DCM initial state of the input, re-generate from the
    input's initial time with the stance flag, the measured position and the
    measured yaw, get the CoM-height generator.  The contact status, the
    steps, the DCM trajectory and the merge points of the output are the
    generator's after these calls. *)
Theorem X7_replanning_advance_trace uninit p p' :
  state p = Running ->
  advance uninit p = Returned (true, p') ->
  let g := gen_after (firstn 6 (replanningAdvanceCalls uninit p)) (generator p) in
  calls p' = calls p ++ replanningAdvanceCalls uninit p /\
  generator p' = gen_after (replanningAdvanceCalls uninit p) (generator p) /\
  Output.contactStatus (output p')
  = {| leftFootInContact := fst (getFeetStandingPeriods g);
       rightFootInContact := snd (getFeetStandingPeriods g);
       UsedLeftAsFixed := getWhenUseLeftAsFixed g |} /\
  Output.steps (output p') = {| leftSteps := getLeftSteps g; rightSteps := getRightSteps g |} /\
  Output.dcmTrajectory (output p') = DCMTrajectory.mk (getDCMPosition g) (getDCMVelocity g) /\
  Output.mergePoints (output p') = getMergePoints (generator p').
Proof.
  intros Hs H g.
  apply advance_publish in H.
  destruct H as (q & Hq & _ & _ & _ & Hc & Hg).
  rewrite Hs in Hc, Hg; cbn [FSM_eqb] in Hc, Hg; fold g in Hg.
  pose proof (publish_com _ _ _ Hq) as (sys & ps & vs & accs & sys' & _ & _ & _ & _ & _ & _ & _ & _ & Hm).
  apply publish_returned in Hq.
  destruct Hq as (_ & _ & _ & Hd & Hst & Hcs & Hg' & Hc' & _).
  rewrite Hg in Hd, Hst, Hcs, Hg'.
  repeat split; trivial.
  rewrite Hc', Hc. unfold replanningAdvanceCalls; cbn [firstn].
  now rewrite <- app_assoc.
Qed.

(** X8.  A call of [advance] that returns, with either result, leaves the
    stored input and the parameters as they were, keeps the integration
    step, and keeps the matrices of the CoM system; one that returns false
    leaves the whole CoM system as it was. *)
Theorem X8_advance_keeps_configuration uninit p b p' :
  advance uninit p = Returned (b, p') ->
  input p' = input p /\ parameters p' = parameters p /\
  integrator (comSystem p') = integrator (comSystem p) /\
  (b = false -> comSystem p' = comSystem p) /\
  (forall sys, dynamics (comSystem p) = Some sys ->
               exists sys', dynamics (comSystem p') = Some sys' /\
                            lti_A sys' = lti_A sys /\ lti_B sys' = lti_B sys).
Proof.
  intros H.
  destruct b.
  - apply advance_publish in H.
    destruct H as (q & Hq & Hi & Hp & Hcom & _).
    pose proof (publish_com _ _ _ Hq)
      as (sys & ps & vs & accs & sys' & Hd & Hint & Hd' & Hstep & _).
    apply integrateCoM_matrices in Hint; cbn [snd setState lti_A lti_B] in Hint.
    apply publish_returned in Hq.
    destruct Hq as (_ & _ & _ & _ & _ & _ & _ & _ & Hi' & Hp' & _).
    rewrite Hcom in Hd, Hstep.
    repeat split; try congruence.
    intros sys0 Hsys0. rewrite Hd in Hsys0; inversion Hsys0; subst sys0.
    exists sys'; tauto.
  - destruct (state p) eqn:Hs.
    + unfold advance in H; rewrite Hs in H; cbn in H. inversion H; subst.
      repeat split; eauto.
    + rewrite (advance_initialized _ _ Hs) in H.
      apply publish_returned in H; destruct H as [H _]; discriminate.
    + destruct (advance_running uninit p Hs) as [[_ E] | [_ E]]; rewrite E in H.
      * inversion H; subst; cbn [input parameters comSystem].
        repeat split; eauto.
      * apply publish_returned in H; destruct H as [H _]; discriminate.
Qed.

(** X11.  After a call of [advance] that returns true, the heights of the
    CoM position, velocity and acceleration samples are the first samples
    of the height, height-velocity and height-acceleration profiles that
    the generator holds (which are also the ones stored in the planner),
    and the planar part of the first CoM position is the initial planar
    position of the input. *)
Theorem X11_com_heights_and_start uninit p p' :
  advance uninit p = Returned (true, p') ->
  let com := Output.comTrajectory (output p') in
  let n := List.length (DCMTrajectory.position (Output.dcmTrajectory (output p'))) in
  comHeightTrajectory p'
  = COMHeightTrajectory.mk (getCoMHeightTrajectory (generator p'))
                           (getCoMHeightVelocity (generator p'))
                           (getCoMHeightAccelerationProfile (generator p')) /\
  map height (COMTrajectory.position com)
  = firstn n (getCoMHeightTrajectory (generator p')) /\
  map height (COMTrajectory.velocity com)
  = firstn n (getCoMHeightVelocity (generator p')) /\
  map height (COMTrajectory.acceleration com)
  = firstn n (getCoMHeightAccelerationProfile (generator p')) /\
  (n <> 0%nat ->
   option_map planar (hd_error (COMTrajectory.position com))
   = Some (initialPlanarPosition (Input.comInitialState (input p)))).
Proof.
  intros H com n.
  apply advance_publish in H.
  destruct H as (q & Hq & Hi & _).
  pose proof (publish_com _ _ _ Hq)
    as (sys & ps & vs & accs & sys' & _ & Hint & _ & _ & Hh & Hsp & Hsv & Hsa & _).
  pose proof (publish_returned _ _ _ Hq) as (_ & _ & _ & Hd & _).
  pose proof (integrateCoM_length _ _ _ _ _ _ _ _ _ _ Hint) as (Lp & Lv & La).
  apply stackHeight_spec in Hsp, Hsv, Hsa.
  destruct Hsp as [Pp Ph], Hsv as [Vp Vh], Hsa as [Ap Ah].
  cbn [skipn] in Ph, Vh, Ah.
  assert (Hn : n = List.length (getDCMPosition (generator q)))
    by (unfold n; rewrite Hd; reflexivity).
  rewrite Lp in Ph; rewrite Lv in Vh; rewrite La in Ah.
  rewrite <- Hn in Ph, Vh, Ah.
  subst com; repeat split; trivial.
  intros Hne. rewrite Hn in Hne.
  destruct (getDCMPosition (generator q)) as [|d rest] eqn:Ed; [contradiction|].
  apply integrateCoM_first in Hint.
  destruct Hint as (v & _ & Hps & _).
  cbn [snd setState lti_state v4_head2 v4_of_pair c0 c1] in Hps.
  rewrite <- Pp in Hps.
  destruct (COMTrajectory.position (Output.comTrajectory (output p'))) as [|x xs];
    [discriminate|].
  cbn [map hd_error option_map] in *. inversion Hps.
  rewrite Hi in *.
  destruct (initialPlanarPosition (Input.comInitialState (input p))) as [a0 a1].
  unfold planar; cbn [fst snd] in *. now subst.
Qed.

(** X12.  When the CoM system holds the matrices that [initialize] builds
    for some [w], every planar CoM velocity sample published by a call of
    [advance] that returns true is [w] times the difference between the DCM
    position and the CoM position of the same sample, and the system still
    holds these matrices afterwards. *)
Theorem X12_com_velocity_follows_lipm uninit p p' (w : R) (sys : LinearTimeInvariantSystem) :
  dynamics (comSystem p) = Some sys ->
  lti_A sys = systemMatrixA w -> lti_B sys = systemMatrixB w ->
  advance uninit p = Returned (true, p') ->
  (forall k x v d,
      nth_error (COMTrajectory.position (Output.comTrajectory (output p'))) k = Some x ->
      nth_error (COMTrajectory.velocity (Output.comTrajectory (output p'))) k = Some v ->
      nth_error (DCMTrajectory.position (Output.dcmTrajectory (output p'))) k = Some d ->
      fst (planar v) = w * (fst d - fst (planar x)) /\
      snd (planar v) = w * (snd d - snd (planar x))) /\
  exists sys', dynamics (comSystem p') = Some sys' /\
               lti_A sys' = systemMatrixA w /\ lti_B sys' = systemMatrixB w.
Proof.
  intros Hsys HA HB H.
  apply advance_publish in H.
  destruct H as (q & Hq & _ & _ & Hcom & _).
  pose proof (publish_com _ _ _ Hq)
    as (sys0 & ps & vs & accs & sys' & Hd0 & Hint & Hd' & _ & _ & Hsp & Hsv & _).
  pose proof (publish_returned _ _ _ Hq) as (_ & _ & _ & Hd & _).
  rewrite Hcom, Hsys in Hd0; inversion Hd0; subst sys0; clear Hd0.
  split.
  - intros k x v d Hx Hv Hdk.
    apply stackHeight_spec in Hsp, Hsv.
    destruct Hsp as [Pp _], Hsv as [Vp _].
    rewrite Hd in Hdk; cbn [DCMTrajectory.position] in Hdk.
    apply (map_nth_error planar) in Hx, Hv.
    rewrite Pp in Hx; rewrite Vp in Hv.
    eapply (integrateCoM_lipm w); [| | exact Hint | exact Hx | exact Hdk | exact Hv];
      cbn [snd setState lti_A lti_B]; assumption.
  - apply integrateCoM_matrices in Hint; cbn [snd setState lti_A lti_B] in Hint.
    exists sys'; repeat split; [assumption | |]; destruct Hint; congruence.
Qed.

(** ** The whole configuration *)

(** X13.  A successful [initialize] makes on the generator, in this order,
    the calls of the unicycle-planner configuration, of the generator
    configuration and of the cold-start plan, every argument being the value
    read from the handler or the fallback written in the code (for
    instance the step timings 0.65, 1.5 and 0.8 s, the CoM height 0.70 and
    the angle variations 18 and 5, passed on as read), and the period and
    the horizon being the stored ones. *)
Theorem X13_initialize_forwards_configuration (h : IParametersHandler) u uninitController p p' :
  initialize (Some h) u uninitController p = (true, p') ->
  exists sat mpr lz rz,
    getVector2d h "saturationFactors" = Some sat /\
    getVector2d h "mergePointRatios" = Some mpr /\
    getVector2d h "leftZMPDelta" = Some lz /\
    getVector2d h "rightZMPDelta" = Some rz /\
    calls p'
    = calls p
      ++ map stmt_call (configureUnicyclePlanner (resolvedLocals h sat mpr lz rz)
                                                 (parameters p'))
      ++ map stmt_call
           (configureGenerator
              (resolvedLocals h sat mpr lz rz)
              (if String.eqb (orDefault (getString h "controlType") "direct"%string)
                             "personFollowing"
               then PERSON_FOLLOWING else DIRECT))
      ++ firstTrajectoryCalls (parameters p').
Proof.
  intros H.
  apply initialize_true in H.
  destruct H as (h' & l & prm & ctl & Hh & HP & HC & _ & Hprm & _ & _ & _ & Hcalls).
  inversion Hh; subst h'; clear Hh.
  destruct (parseParameters_resolved h u (parameters p)) as [Hok Hres].
  rewrite HP in Hok; cbn [fst] in Hok; symmetry in Hok.
  destruct (Hres Hok)
    as (ref & sat & mpr & lz & rz & ln & rn & _ & Hsat & Hmpr & Hlz & Hrz & _ & _ & E).
  rewrite HP in E; injection E as Hl Hq.
  exists sat, mpr, lz, rz.
  repeat split; trivial.
  rewrite Hcalls, Hprm, <- Hl.
  rewrite Hl in HC.
  cbn [resolvedLocals Locals.unicycleControllerAsString] in HC.
  unfold setUnicycleControllerFromString in HC.
  destruct (String.eqb _ "personFollowing").
  - inversion HC; reflexivity.
  - destruct (String.eqb _ "direct"); [|discriminate]. inversion HC; reflexivity.
Qed.

End Properties.


(** * The theorems on the small instance *)

Module Witness.
Import Example.

Lemma initialized_ok :
  initialize (Some requiredOnly) junkLocals DIRECT fresh = (true, initialized).
Proof. reflexivity. Qed.

Lemma initialized_advances :
  exists p', advance (0, 0) initialized = Returned (true, p').
Proof.
  rewrite (advance_initialized (0, 0) initialized eq_refl).
  apply publish_total; reflexivity.
Qed.

Lemma rejecting_rejects : Rejects (0, 0) rejecting.
Proof. apply RejectsReGenerate; reflexivity. Qed.

Lemma rejected_ok : advance (0, 0) rejecting = Returned (false, rejected).
Proof.
  destruct (advance_running (0, 0) rejecting eq_refl) as [[_ E] | [Hn _]].
  - exact E.
  - destruct (Hn rejecting_rejects).
Qed.

Lemma C1_witness :
  fst (desiredPointInRelativeFrame (0, 0) (Input.plannerInput laterInput)) = 2 /\
  snd (desiredPointInRelativeFrame (0, 0) (Input.plannerInput laterInput)) = 0.
Proof.
  exact (proj1 C1_relative_point_drops_x_command (0, 0) (Input.plannerInput laterInput)).
Defined.

Lemma C2_witness :
  getDouble requiredOnly "slowWhenSidewaysFactor" = None /\
  In (SetSlowWhenSidewaysFactor 0.4) (calls initialized) /\
  (forall f, In (SetSlowWhenSidewaysFactor f) (calls initialized) -> f = 0.4) /\
  0.4 <> 0.2.
Proof.
  destruct (C2_sideways_setting_receives_backward_factor
              requiredOnly junkLocals DIRECT fresh initialized initialized_ok)
    as (new & Hc & _ & Hs & Hu).
  change (calls initialized = new) in Hc.
  rewrite Hc.
  repeat split; [exact Hs | exact Hu | lra].
Defined.

Lemma C3_witness :
  exists p', advance (0, 0) rejecting = Returned (false, p') /\
             output p' = output rejecting /\ state p' = Running.
Proof.
  apply (proj1 (C3_rejected_replan_keeps_output (0, 0) rejecting eq_refl)).
  exact rejecting_rejects.
Defined.

Lemma C4_witness :
  exists sys,
    dynamics (comSystem initialized) = Some sys /\
    m4_coeff (lti_B sys) 0 0 = sqrt (9.81 / 0.70) /\
    Rabs (m4_coeff (lti_A sys) 0 0 - (- 3.74)) < 0.005 /\
    Rabs (m4_coeff (lti_A sys) 0 1 - 0) < 0.005.
Proof.
  assert (Hpos : 0 < orDefault (getDouble requiredOnly "comHeight") 0.70)
    by (unfold orDefault; simpl; lra).
  destruct (C4_lipm_matrices requiredOnly junkLocals DIRECT fresh initialized
                             initialized_ok Hpos)
    as (sys & Hd & _ & HB & _ & _ & _ & Hnom).
  exists sys; split; [exact Hd|].
  split; [exact (HB 0%nat 0%nat ltac:(lia) ltac:(lia))|].
  split; [exact (Hnom eq_refl 0%nat 0%nat ltac:(lia) ltac:(lia))
         | exact (Hnom eq_refl 0%nat 1%nat ltac:(lia) ltac:(lia))].
Defined.


Lemma C6_witness :
  setInput dummyInput fresh = (false, fresh) /\
  advance (0, 0) fresh = Returned (false, fresh) /\
  setRobotContactFrames robot fresh = (false, fresh).
Proof.
  exact (C6_not_initialized_calls_fail fresh dummyInput robot (0, 0) eq_refl).
Defined.

Lemma C7_witness :
  fst (setRobotContactFrames robotWithoutLeftSole initialized) = false /\
  state (snd (setRobotContactFrames robotWithoutLeftSole initialized)) = NotInitialized /\
  advance (0, 0) (snd (setRobotContactFrames robotWithoutLeftSole initialized))
  = Returned (false, snd (setRobotContactFrames robotWithoutLeftSole initialized)).
Proof.
  apply (C7_unresolved_frame_resets initialized robotWithoutLeftSole (0, 0)).
  - change (Initialized <> NotInitialized); discriminate.
  - left; reflexivity.
Defined.

Lemma C8_witness :
  exists p',
    advance (0, 0) initialized = Returned (true, p') /\
    comAlignedWithDCM (output p').
Proof.
  destruct initialized_advances as [p' E].
  exists p'; split; [exact E|].
  exact (proj1 (proj1 (@C8_com_aligned_with_dcm nat toyGenerator toyCast) (0, 0) _ _ E)).
Defined.

Lemma C9_witness :
  exists message,
    getContactPhaseList initialized
    = (emptyContactPhaseList, [LogError message], initialized) /\
    lists (fst (fst (getContactPhaseList initialized))) = [].
Proof.
  apply (C9_contact_phase_list_errors initialized).
  left; reflexivity.
Defined.

Lemma C10_witness :
  initTime rejecting = 5000000000%Z /\
  getContactPhaseList rejecting
  = ({| lists := [("left_foot"%string, (5000000000%Z, "left_foot"%string));
                  ("right_foot"%string, (5000000000%Z, "right_foot"%string))] |},
     [], rejecting) /\
  initTime rejected = 0%Z /\
  output rejected = output rejecting /\
  getContactPhaseList rejected
  = ({| lists := [("left_foot"%string, (0%Z, "left_foot"%string));
                  ("right_foot"%string, (0%Z, "right_foot"%string))] |},
     [], rejected).
Proof.
  assert (Hs : state rejecting <> NotInitialized)
    by (change (Running <> NotInitialized); discriminate).
  destruct (C10_init_time_overwritten_on_failure (0, 0) rejecting false rejected
                                                 Hs rejected_ok)
    as (Ht & Hrest).
  destruct (Hrest eq_refl) as (Ho & Hl).
  split; [reflexivity|]. split; [reflexivity|].
  split; [exact Ht|]. split; [exact Ho|].
  exact (eq_trans Hl eq_refl).
Defined.

Lemma running_not_rejecting : ~ Rejects (0, 0) running.
Proof. intros [H | _ H | _ _ H]; discriminate H. Qed.

Lemma running_advances : exists p', advance (0, 0) running = Returned (true, p').
Proof.
  destruct (advance_running (0, 0) running eq_refl) as [[HR _] | [_ E]].
  - destruct (running_not_rejecting HR).
  - rewrite E; apply publish_total; reflexivity.
Qed.

Lemma initializedWithYaw_ok :
  initialize (Some withYaw) junkLocals DIRECT fresh = (true, initializedWithYaw).
Proof. reflexivity. Qed.

Lemma PI_bounds : 3.1415 < PI < 3.1417.
Proof.
  pose proof (PI_2_3_7_ineq 2) as [Hlo Hhi].
  unfold sum_f_R0, tg_alt, PI_2_3_7_tg, Ratan_seq in Hlo, Hhi.
  cbn [Nat.mul Nat.add] in Hlo, Hhi.
  simpl in Hlo, Hhi.
  split; lra.
Qed.

Lemma X1_witness :
  state (snd (initialize (Some emptyHandler) junkLocals DIRECT initialized)) = Initialized /\
  output (snd (initialize (Some emptyHandler) junkLocals DIRECT initialized))
  = output initialized /\
  input (snd (initialize (Some emptyHandler) junkLocals DIRECT initialized))
  = input initialized.
Proof.
  exact (X1_failed_initialize_keeps_state (Some emptyHandler) junkLocals DIRECT initialized
                                          eq_refl).
Defined.

Lemma X2_witness :
  requiredPresent requiredOnly = true /\ controlTypeValid requiredOnly = true /\
  In (SetUnicycleController DIRECT) (calls initialized).
Proof.
  destruct (X2_initialize_requirements (Some requiredOnly) junkLocals DIRECT fresh initialized
                                       initialized_ok)
    as (h & Hh & Hr & Hc & before & after & Hcalls).
  injection Hh as <-.
  split; [exact Hr | split; [exact Hc|]].
  rewrite Hcalls.
  apply in_or_app; right; apply in_or_app; right; left; reflexivity.
Defined.

Lemma X3_witness :
  fst (initialize (Some emptyHandler) junkLocals DIRECT fresh) = false /\
  List.length (calls (snd (initialize (Some emptyHandler) junkLocals DIRECT fresh))) = 11%nat.
Proof.
  destruct (X3_missing_parameter_skips_checked_calls emptyHandler junkLocals DIRECT fresh
                                                     eq_refl)
    as (Hf & a & b & c & d & e & f & g & i & j & Hcalls).
  split; [exact Hf|].
  rewrite Hcalls; reflexivity.
Defined.

Lemma X4_witness :
  Parameters.leftYawDeltaInRad (parameters initializedWithYaw) = 10 * PI / 180 /\
  Parameters.rightYawDeltaInRad (parameters initializedWithYaw) = -10 * PI / 180 /\
  Rabs (Parameters.leftYawDeltaInRad (parameters initializedWithYaw) - 0.1745) < 0.0001 /\
  Rabs (Parameters.rightYawDeltaInRad (parameters initializedWithYaw) - - 0.1745) < 0.0001.
Proof.
  destruct (X4_parameters_after_initialize withYaw junkLocals DIRECT fresh initializedWithYaw
                                           initializedWithYaw_ok)
    as (ref & ln & rn & _ & _ & _ & Hp & _).
  rewrite Hp.
  cbn [resolvedParameters Parameters.leftYawDeltaInRad Parameters.rightYawDeltaInRad].
  change (orDefault (getDouble withYaw "leftYawDeltaInDeg") 0.0) with 10.
  change (orDefault (getDouble withYaw "rightYawDeltaInDeg") 0.0) with (-10).
  unfold deg2rad.
  pose proof PI_bounds as [Hlo Hhi].
  repeat split; try reflexivity; apply Rabs_def1; lra.
Defined.

Lemma X5_witness :
  fst (setRobotContactFrames robot initialized) = true /\
  Parameters.leftContactFrameIndex (parameters (snd (setRobotContactFrames robot initialized)))
  = 1%Z /\
  Parameters.rightContactFrameIndex (parameters (snd (setRobotContactFrames robot initialized)))
  = 2%Z /\
  fst (setRobotContactFrames robotWithoutLeftSole initialized) = false.
Proof.
  destruct (X5_contact_frames_resolved robot initialized) as (Hiff & Hset & _).
  destruct (X5_contact_frames_resolved robotWithoutLeftSole initialized) as (Hiff' & _).
  assert (Ht : fst (setRobotContactFrames robot initialized) = true).
  { apply Hiff; repeat split; discriminate. }
  split; [exact Ht|].
  rewrite (Hset Ht).
  split; [reflexivity|]. split; [reflexivity|].
  destruct (fst (setRobotContactFrames robotWithoutLeftSole initialized)) eqn:E;
    [|reflexivity].
  destruct (proj1 Hiff' eq_refl) as (_ & _ & Hl & _).
  destruct (Hl eq_refl).
Defined.

Lemma X7_witness :
  exists p',
    advance (0, 0) running = Returned (true, p') /\
    calls p' = calls running ++ replanningAdvanceCalls (0, 0) running /\
    Output.mergePoints (output p') = [1%nat; 1%nat].
Proof.
  destruct running_advances as [p' E].
  exists p'; split; [exact E|].
  destruct (X7_replanning_advance_trace (0, 0) running p' eq_refl E)
    as (Hc & Hg & _ & _ & _ & Hm).
  split; [exact Hc|].
  rewrite Hm, Hg; reflexivity.
Defined.

Lemma X8_witness :
  input rejected = input rejecting /\ parameters rejected = parameters rejecting /\
  comSystem rejected = comSystem rejecting.
Proof.
  destruct (X8_advance_keeps_configuration (0, 0) rejecting false rejected rejected_ok)
    as (Hi & Hp & _ & Hc & _).
  split; [exact Hi | split; [exact Hp | exact (Hc eq_refl)]].
Defined.

Lemma X11_witness :
  exists p',
    advance (0, 0) initialized = Returned (true, p') /\
    map height (COMTrajectory.position (Output.comTrajectory (output p'))) = [0.7; 0.7] /\
    option_map planar (hd_error (COMTrajectory.position (Output.comTrajectory (output p'))))
    = Some (0, 0).
Proof.
  destruct initialized_advances as [p' E].
  exists p'; split; [exact E|].
  destruct (X11_com_heights_and_start (0, 0) initialized p' E) as (_ & Hh & _ & _ & Hstart).
  pose proof (advance_publish _ _ _ E) as (q & Hq & _ & _ & _ & _ & Hg).
  pose proof (publish_returned _ _ _ Hq) as (_ & _ & _ & Hd & _ & _ & Hg' & _).
  cbv zeta in Hh, Hstart.
  rewrite Hd in Hh, Hstart. rewrite Hg' in Hh. rewrite Hg in Hh, Hstart.
  split; [exact Hh|].
  apply Hstart; discriminate.
Defined.

Lemma X12_witness :
  exists p',
    advance (0, 0) initialized = Returned (true, p') /\
    forall k x v d,
      nth_error (COMTrajectory.position (Output.comTrajectory (output p'))) k = Some x ->
      nth_error (COMTrajectory.velocity (Output.comTrajectory (output p'))) k = Some v ->
      nth_error (DCMTrajectory.position (Output.dcmTrajectory (output p'))) k = Some d ->
      fst (planar v) = sqrt (9.81 / 0.70) * (fst d - fst (planar x)) /\
      snd (planar v) = sqrt (9.81 / 0.70) * (snd d - snd (planar x)).
Proof.
  destruct initialized_advances as [p' E].
  exists p'; split; [exact E|].
  exact (proj1 (X12_com_velocity_follows_lipm
                  (0, 0) initialized p' (omega 0.70)
                  {| lti_A := systemMatrixA (omega 0.70);
                     lti_B := systemMatrixB (omega 0.70);
                     lti_state := v4_zero;
                     lti_controlInput := v4_zero |}
                  eq_refl eq_refl eq_refl E)).
Defined.

Lemma X13_witness :
  In (SetStepTimings 0.65 1.5 0.8) (calls initialized) /\
  In (SetCoMHeightSettings 0.70 0.01) (calls initialized) /\
  In (SetMaxAngleVariation 18.0) (calls initialized).
Proof.
  destruct (X13_initialize_forwards_configuration requiredOnly junkLocals DIRECT fresh
                                                  initialized initialized_ok)
    as (sat & mpr & lz & rz & _ & _ & _ & _ & Hcalls).
  rewrite Hcalls.
  repeat split.
  - apply in_or_app; right; apply in_or_app; left.
    cbn [configureUnicyclePlanner map stmt_call In]; repeat (first [left; reflexivity | right]).
  - apply in_or_app; right; apply in_or_app; right; apply in_or_app; left.
    cbn [configureGenerator map stmt_call In]; repeat (first [left; reflexivity | right]).
  - apply in_or_app; right; apply in_or_app; left.
    cbn [configureUnicyclePlanner map stmt_call In]; repeat (first [left; reflexivity | right]).
Defined.


Lemma X10_witness :
  getContactPhaseList running
  = ({| lists := [("left_foot"%string, (5000000000%Z, "left_foot"%string));
                  ("right_foot"%string, (5000000000%Z, "right_foot"%string))] |},
     [], running).
Proof.
  exact (proj2 (X10_contact_phase_list_built running) _ _ eq_refl eq_refl eq_refl).
Defined.


End Witness.
